(** * Shallow embedding of horovod/spark/torch/estimator.py and
    horovod/spark/common/params.py (TorchEstimator, TorchModel and their
    parameter serialisation).

    Python values are modelled by [pyval]; exceptions by [exc]; a pyspark
    [Params] object by its two dictionaries (explicitly set parameters and
    defaults).  Collaborators outside these two files (data preparation,
    the execution backend, the store, codec, torch.load) are abstract
    functions gathered in the record [Collab]; every call to one of them is
    recorded in a trace of [event]s so that the order of effects is
    observable. *)

From Stdlib Require Import QArith Qround Qabs ZArith Lqa.
From stdpp Require Import base gmap strings list pretty.
Set Warnings "-register-all,-notation-incompatible-prefix".


(* ------------------------------------------------------------------ *)
(** ** Python values and exceptions *)

Inductive pyval : Type :=
| PNone
| PBool (b : bool)
| PInt (z : Z)
| PFloat (q : Q)
| PStr (s : string)
| PList (l : list pyval)
| PTuple (l : list pyval)
| PObj (id : nat)
  (** any other object whose class defines neither [__bool__] nor
      [__len__]: a model, optimizer, backend, store, ... *)
| PSized (id : nat) (len : nat).
  (** an object whose class defines [__len__] (and not [__bool__]): a torch
      container module ([nn.Sequential], [nn.ModuleList]) with [len]
      submodules, which iterating over it yields *)

Definition is_none (v : pyval) : bool :=
  match v with PNone => true | _ => false end.

(** Python truthiness ([if v:]): an object without [__bool__] and
    [__len__] is true, one with [__len__] is true when its length is not 0. *)
Definition truthy (v : pyval) : bool :=
  match v with
  | PNone => false
  | PBool b => b
  | PInt z => negb (Z.eqb z 0)
  | PFloat q => negb (Qeq_bool q 0)
  | PStr s => negb (String.eqb s "")
  | PList l | PTuple l => negb (Nat.eqb (length l) 0)
  | PObj _ => true
  | PSized _ n => negb (Nat.eqb n 0)
  end.

(** [isinstance(v, list) or isinstance(v, tuple)] *)
Definition is_list_or_tuple (v : pyval) : bool :=
  match v with PList _ | PTuple _ => true | _ => false end.

Inductive exc : Type :=
| ValueError (msg : string)
| KeyError (key : string)
| IndexError (msg : string)
| TypeError (msg : string)
| AttributeError (msg : string)
| RuntimeError (msg : string)
| Raised (code : nat).  (** an exception raised inside a collaborator *)

Inductive result (A : Type) : Type :=
| Ok (a : A)
| Err (e : exc).
Arguments Ok {A} a.
Arguments Err {A} e.

(** The double-quote character, for messages that contain one. *)
Definition dq : string := String (Ascii.ascii_of_nat 34) EmptyString.

Definition rbind {A B} (r : result A) (k : A -> result B) : result B :=
  match r with Ok a => k a | Err e => Err e end.

(** [[f(x) for x in l]] where [f] may raise: the first exception propagates. *)
Fixpoint map_result {A B} (f : A -> result B) (l : list A) : result (list B) :=
  match l with
  | [] => Ok []
  | x :: l' =>
      match f x with
      | Err e => Err e
      | Ok y => match map_result f l' with Err e => Err e | Ok ys => Ok (y :: ys) end
      end
  end.

(* ------------------------------------------------------------------ *)
(** ** pyspark [Params]: [_paramMap] and [_defaultParamMap] *)

Record Params : Type := {
  param_map : gmap string pyval;
  default_map : gmap string pyval
}.

(** [Params.getOrDefault]: the explicitly set value, else the default,
    else [KeyError]. *)
Definition getOrDefault (p : Params) (k : string) : result pyval :=
  match param_map p !! k with
  | Some v => Ok v
  | None =>
      match default_map p !! k with
      | Some v => Ok v
      | None => Err (KeyError k)
      end
  end.

(** The store of [Params._set(kwargs...)]: each (already converted) value
    goes into [_paramMap], in the order of the keyword arguments. *)
Definition py_set (p : Params) (kwargs : list (string * pyval)) : Params :=
  foldl (fun p kv =>
           {| param_map := <[kv.1 := kv.2]> (param_map p);
              default_map := default_map p |}) p kwargs.

(** [Params._setDefault(kwargs...)] *)
Definition _setDefault (p : Params) (kwargs : list (string * pyval)) : Params :=
  foldl (fun p kv =>
           {| param_map := param_map p;
              default_map := <[kv.1 := kv.2]> (default_map p) |}) p kwargs.

(** The [typeConverter]s of pyspark's [Param]s ([TypeConverters]). *)
Module TypeConverters.
Inductive t : Type :=
| identity | toListFloat | toString | toListString | toInt | toFloat.
End TypeConverters.

(** [TypeConverters._is_numeric]: [type(v)] is [int] or [float] (not [bool]). *)
Definition _is_numeric (v : pyval) : bool :=
  match v with PInt _ | PFloat _ => true | _ => false end.

(** [TypeConverters._can_convert_to_string] *)
Definition _can_convert_to_string (v : pyval) : bool :=
  match v with PStr _ => true | _ => false end.

(** [float(v)] of a number. *)
Definition py_float (v : pyval) : pyval :=
  match v with PInt z => PFloat (inject_Z z) | _ => v end.

(** [TypeConverters]: [toList] accepts a [list] or a [tuple]; [toInt] the
    numbers with [float(v).is_integer()].  The messages keep their format
    string: the [%s] (the value, or its type for [toString]) is not
    interpolated. *)
Definition convert (c : TypeConverters.t) (v : pyval) : result pyval :=
  match c with
  | TypeConverters.identity => Ok v
  | TypeConverters.toListFloat =>
      match v with
      | PList l | PTuple l =>
          if forallb _is_numeric l then Ok (PList (map py_float l))
          else Err (TypeError "Could not convert %s to list of floats")
      | _ => Err (TypeError "Could not convert %s to list of floats")
      end
  | TypeConverters.toString =>
      match v with
      | PStr _ => Ok v
      | _ => Err (TypeError "Could not convert %s to string type")
      end
  | TypeConverters.toListString =>
      match v with
      | PList l | PTuple l =>
          if forallb _can_convert_to_string l then Ok (PList l)
          else Err (TypeError "Could not convert %s to list of strings")
      | _ => Err (TypeError "Could not convert %s to list of strings")
      end
  | TypeConverters.toInt =>
      match v with
      | PInt z => Ok (PInt z)
      | PFloat q =>
          if Z.eqb (Z.rem (Qnum q) (Zpos (Qden q))) 0
          then Ok (PInt (Z.quot (Qnum q) (Zpos (Qden q))))
          else Err (TypeError "Could not convert %s to int")
      | _ => Err (TypeError "Could not convert %s to int")
      end
  | TypeConverters.toFloat =>
      if _is_numeric v then Ok (py_float v)
      else Err (TypeError "Could not convert %s to float")
  end.

(** One iteration of [Params._set]: [p = getattr(self, param)] (an unknown
    name is an [AttributeError]); a value other than [None] goes through
    [p.typeConverter], whose [TypeError] is re-raised with the param's name. *)
Definition param_value (params : list (string * TypeConverters.t))
    (name : string) (v : pyval) : result pyval :=
  match List.find (fun pc => String.eqb pc.1 name) params with
  | None => Err (AttributeError ("object has no attribute '" +:+ name +:+ "'"))
  | Some pc =>
      if is_none v then Ok v
      else match convert pc.2 v with
           | Err (TypeError e) =>
               Err (TypeError ("Invalid param value given for param " +:+ dq +:+ name
                               +:+ dq +:+ ". " +:+ e))
           | r => r
           end
  end.

Definition is_ok {A} (r : result A) : bool := match r with Ok _ => true | Err _ => false end.

(** [Params._set(kwargs...)] on the params [params] of the class: convert
    every value, then store them.  (Python stores the values converted
    before a failing one; every caller here then drops the object.) *)
Definition _set (params : list (string * TypeConverters.t)) (p : Params)
    (kwargs : list (string * pyval)) : result Params :=
  rbind (map_result (fun kv => rbind (param_value params kv.1 kv.2)
                                     (fun v => Ok (kv.1, v))) kwargs)
        (fun kwargs' => Ok (py_set p kwargs')).

(** The params of [EstimatorParams] (params.py lines 25-69) and the two
    [TorchEstimator] adds (estimator.py), with their converters. *)
Definition TorchEstimator_params : list (string * TypeConverters.t) :=
  [("num_proc", TypeConverters.identity); ("optimizer", TypeConverters.identity);
   ("model", TypeConverters.identity); ("backend", TypeConverters.identity);
   ("store", TypeConverters.identity); ("metrics", TypeConverters.identity);
   ("loss", TypeConverters.identity); ("compression", TypeConverters.identity);
   ("loss_weights", TypeConverters.toListFloat);
   ("sample_weight_col", TypeConverters.toString);
   ("feature_cols", TypeConverters.toListString);
   ("label_cols", TypeConverters.toListString);
   ("validation_col", TypeConverters.toString);
   ("callbacks", TypeConverters.identity); ("batch_size", TypeConverters.toInt);
   ("epochs", TypeConverters.identity); ("validation_split", TypeConverters.toFloat);
   ("shuffle_buffer_size", TypeConverters.toInt); ("verbose", TypeConverters.toInt);
   ("partitions_per_process", TypeConverters.toInt);
   ("run_id", TypeConverters.toString);
   ("input_shapes", TypeConverters.identity);
   ("loss_constructor", TypeConverters.identity)].

(** The params of [ModelParams] (params.py lines 231-253), [HasOutputCols]
    and the two [TorchModel] adds, with their converters. *)
Definition TorchModel_params : list (string * TypeConverters.t) :=
  [("outputCols", TypeConverters.toListString);
   ("history", TypeConverters.identity); ("model", TypeConverters.identity);
   ("feature_columns", TypeConverters.identity);
   ("label_columns", TypeConverters.identity);
   ("run_id", TypeConverters.toString); ("_metadata", TypeConverters.identity);
   ("optimizer", TypeConverters.identity); ("input_shapes", TypeConverters.identity)].

(** [@keyword_only]: a keyword the function does not declare is a
    [TypeError] raised at the call, before the body runs. *)
Definition unexpected_keyword (names : list string) (kwargs : list (string * pyval))
  : option string :=
  match List.find (fun kv => negb (existsb (String.eqb kv.1) names)) kwargs with
  | Some kv => Some kv.1
  | None => None
  end.

Definition unexpected_keyword_error (k : string) : exc :=
  TypeError ("__init__() got an unexpected keyword argument '" +:+ k +:+ "'").

(** The keyword arguments of [TorchEstimator.__init__] (estimator.py
    lines 90-112). *)
Definition TorchEstimator_arg_names : list string :=
  ["num_proc"; "model"; "backend"; "store"; "optimizer"; "loss";
   "loss_constructor"; "metrics"; "loss_weights"; "sample_weight_col";
   "compression"; "feature_cols"; "input_shapes"; "validation_col";
   "label_cols"; "callbacks"; "batch_size"; "epochs"; "validation_split";
   "verbose"; "shuffle_buffer_size"; "partitions_per_process"; "run_id"].

(** [EstimatorParams.__init__]: the defaults of params.py lines 74-95
    ([_setDefault] converts them too; each is already of its param's type,
    see [EstimatorParams_defaults_converted]). *)
Definition EstimatorParams_defaults : list (string * pyval) :=
  [("num_proc", PNone); ("store", PNone); ("backend", PNone);
   ("model", PNone); ("optimizer", PNone); ("loss", PNone);
   ("loss_weights", PNone); ("sample_weight_col", PNone);
   ("metrics", PList []); ("feature_cols", PNone); ("label_cols", PNone);
   ("validation_col", PNone); ("compression", PNone);
   ("batch_size", PInt 32); ("epochs", PInt 1); ("verbose", PInt 1);
   ("callbacks", PList []); ("validation_split", PFloat 0);
   ("shuffle_buffer_size", PNone); ("partitions_per_process", PInt 10);
   ("run_id", PNone)].

Definition EstimatorParams_init : Params :=
  _setDefault {| param_map := ∅; default_map := ∅ |} EstimatorParams_defaults.

(** Python keyword arguments as an ordered dictionary. *)
Definition kw_in (k : string) (kwargs : list (string * pyval)) : bool :=
  existsb (fun kv => String.eqb kv.1 k) kwargs.

Definition kw_get (k : string) (dflt : pyval) (kwargs : list (string * pyval)) : pyval :=
  match List.find (fun kv => String.eqb kv.1 k) kwargs with
  | Some kv => kv.2
  | None => dflt
  end.

(** [kwargs[k] = v] for a key already present: the value is replaced in place. *)
Definition kw_update (k : string) (v : pyval) (kwargs : list (string * pyval))
  : list (string * pyval) :=
  map (fun kv => if String.eqb kv.1 k then (k, v) else kv) kwargs.

(** [TorchEstimator.__init__] (estimator.py lines 90-131); [kwargs] is
    [self._input_kwargs], the keyword arguments actually passed. *)
Definition TorchEstimator_init (kwargs : list (string * pyval)) : result Params :=
  match unexpected_keyword TorchEstimator_arg_names kwargs with
  | Some k => Err (unexpected_keyword_error k)
  | None =>
  let self := _setDefault EstimatorParams_init [("loss_constructor", PNone)] in
  let loss := kw_get "loss" PNone kwargs in
  let loss_constructor := kw_get "loss_constructor" PNone kwargs in
  if kw_in "loss" kwargs && kw_in "loss_constructor" kwargs then
    Err (ValueError "only one of loss_constructor and loss parameters can be specified.")
  else
    let kwargs :=
      if kw_in "loss" kwargs && negb (is_list_or_tuple loss)
      then kw_update "loss" (PList [kw_get "loss" PNone kwargs]) kwargs
      else kwargs in
    let kwargs :=
      if kw_in "loss_constructor" kwargs && negb (is_list_or_tuple loss_constructor)
      then kw_update "loss_constructor"
             (PList [kw_get "loss_constructor" PNone kwargs]) kwargs
      else kwargs in
    _set TorchEstimator_params self kwargs
  end.

Definition getLoss (p : Params) : result pyval := getOrDefault p "loss".
Definition getLossConstructors (p : Params) : result pyval :=
  getOrDefault p "loss_constructor".

(* ------------------------------------------------------------------ *)
(** ** [TorchModel.__init__] (estimator.py lines 285-300) *)

(** Iterating over a Python value in a list comprehension. *)
Definition py_iter (v : pyval) : result (list pyval) :=
  match v with
  | PList l | PTuple l => Ok l
  | PStr s => Ok (map (fun c => PStr (String c EmptyString)) (String.list_ascii_of_string s))
  (* the submodules of a container; their identity is not modelled *)
  | PSized i n => Ok (repeat (PObj i) n)
  | _ => Err (TypeError "object is not iterable")
  end.

(** [col + '__output'] *)
Definition add_output_suffix (col : pyval) : result pyval :=
  match col with
  | PStr s => Ok (PStr (s +:+ "__output"))
  | _ => Err (TypeError "unsupported operand type(s) for +")
  end.

(** The keyword arguments [TorchModel.__init__] accepts. *)
Definition TorchModel_arg_names : list string :=
  ["history"; "model"; "feature_columns"; "input_shapes"; "label_columns";
   "optimizer"; "run_id"; "_metadata"].

(** [ModelParams] and [HasOutputCols] declare no defaults. *)
Definition TorchModel_init (kwargs : list (string * pyval)) : result Params :=
  match unexpected_keyword TorchModel_arg_names kwargs with
  | Some k => Err (unexpected_keyword_error k)
  | None =>
  let self := {| param_map := ∅; default_map := ∅ |} in
  let label_columns := kw_get "label_columns" PNone kwargs in
  let self :=
    if truthy label_columns then
      match py_iter label_columns with
      | Err e => Err e
      | Ok cols =>
          match map_result add_output_suffix cols with
          | Err e => Err e
          | Ok outs => _set TorchModel_params self [("outputCols", PList outs)]  (* setOutputCols *)
          end
      end
    else Ok self in
  match self with
  | Err e => Err e
  | Ok self => _set TorchModel_params self kwargs  (* setParams(kwargs...) *)
  end
  end.

Definition getOutputCols (p : Params) : result pyval := getOrDefault p "outputCols".
Definition getHistory (p : Params) : result pyval := getOrDefault p "history".
Definition getModel (p : Params) : result pyval := getOrDefault p "model".
Definition _get_optimizer (p : Params) : result pyval := getOrDefault p "optimizer".

(* ------------------------------------------------------------------ *)
(** ** Effects: a trace of collaborator calls and Python exceptions *)

(** [RemoteTrainer(self, metadata, last_checkpoint_state, run_id)] *)
Record RemoteTrainer : Type := {
  trainer_estimator : Params;
  trainer_metadata : pyval;
  trainer_last_checkpoint_state : pyval;
  trainer_run_id : pyval
}.

(** One element of the list returned by [backend.run]. *)
Record RunResult : Type := {
  rr_history : pyval;
  rr_serialized_model : pyval;
  rr_serialized_optimizer : pyval
}.

Inductive event : Type :=
| EvSparkBackend (num_processes : pyval)
| EvNumProcesses (backend : pyval)
| EvPrepareData (num_processes : pyval)
| EvCheckShape (metadata : pyval)
| EvGetCheckpointPath (run_id : pyval)
| EvExists (path : pyval)
| EvResumeNotice (path : pyval)
| EvRead (path : pyval)
| EvTorchLoad
| EvSerialize
| EvRun (backend : pyval) (trainer : RemoteTrainer)
| EvLoadsBase64
| EvTorchLoadCpu.

Definition M (A : Type) : Type := list event -> list event * result A.

Definition ret {A} (a : A) : M A := fun tr => (tr, Ok a).
Definition raise {A} (e : exc) : M A := fun tr => (tr, Err e).
Definition lift {A} (r : result A) : M A := fun tr => (tr, r).
Definition bind {A B} (m : M A) (k : A -> M B) : M B :=
  fun tr => match m tr with
            | (tr', Ok a) => k a tr'
            | (tr', Err e) => (tr', Err e)
            end.
(** A call to a collaborator: record it, then return its outcome. *)
Definition call {A} (ev : event) (r : result A) : M A := fun tr => (tr ++ [ev], r).

Notation "x <- m ;; k" := (bind m (fun x => k))
  (at level 62, m at next level, right associativity).
Notation "' p <- m ;; k" := (bind m (fun x => match x with p => k end))
  (at level 62, p pattern, m at next level, right associativity).
Notation "m ;;; k" := (bind m (fun _ => k)) (at level 62, right associativity).

Definition get (p : Params) (k : string) : M pyval := lift (getOrDefault p k).

(** The collaborators: pyspark/horovod utilities, the backend, the store,
    the codec and torch, none of which is part of the two source files. *)
Record Collab : Type := {
  SparkBackend : pyval -> result pyval;
  backend_num_processes : pyval -> result pyval;
  (** [util.prepare_data(num_processes, store, df, label_columns,
      feature_columns, validation_col, validation_split, sample_weight_col,
      partitions_per_process)] *)
  prepare_data : pyval -> pyval -> pyval -> pyval -> pyval -> pyval -> pyval ->
                 pyval -> pyval -> result (pyval * pyval * pyval * pyval);
  (** [util.check_shape_compatibility(metadata, feature_cols, label_cols, input_shapes)] *)
  check_shape_compatibility : pyval -> pyval -> pyval -> pyval -> result unit;
  (** [int(time.time())] *)
  time_now : Z;
  store_get_checkpoint_path : pyval -> pyval -> result pyval;
  store_exists : pyval -> pyval -> result bool;
  store_read : pyval -> pyval -> result pyval;
  (** [torch.load(io.BytesIO(b))] *)
  torch_load : pyval -> result pyval;
  (** [torch.load(b, map_location=torch.device('cpu'))] *)
  torch_load_cpu : pyval -> result pyval;
  util_serialize : pyval -> result pyval;
  codec_loads_base64 : pyval -> result pyval;
  codec_dumps_base64 : pyval -> pyval;
  (** [backend.run(trainer, args=(serialized_model, train_rows, val_rows, avg_row_size), env={})] *)
  backend_run : pyval -> RemoteTrainer -> pyval * pyval * pyval * pyval -> result (list RunResult)
}.

(* ------------------------------------------------------------------ *)
(** ** [TorchEstimator.fit] *)

Section Fit.
Variable C : Collab.

Definition _check_model_compatibility (self : Params) (metadata : pyval) : M unit :=
  feature_cols <- get self "feature_cols" ;;
  label_cols <- get self "label_cols" ;;
  input_shapes <- get self "input_shapes" ;;
  call (EvCheckShape metadata)
       (check_shape_compatibility C metadata feature_cols label_cols input_shapes).

(** [_has_checkpoint] (lines 239-242); [and] short-circuits. *)
Definition _has_checkpoint (self : Params) (run_id : pyval) : M bool :=
  store <- get self "store" ;;
  last_ckpt_path <- call (EvGetCheckpointPath run_id)
                         (store_get_checkpoint_path C store run_id) ;;
  if is_none last_ckpt_path then ret false
  else call (EvExists last_ckpt_path) (store_exists C store last_ckpt_path).

(** [_load_checkpoint] (lines 244-252). *)
Definition _load_checkpoint (self : Params) (run_id : pyval) : M pyval :=
  store <- get self "store" ;;
  last_ckpt_path <- call (EvGetCheckpointPath run_id)
                         (store_get_checkpoint_path C store run_id) ;;
  verbose <- get self "verbose" ;;
  (if truthy verbose then call (EvResumeNotice last_ckpt_path) (Ok tt) else ret tt) ;;;
  ckpt <- call (EvRead last_ckpt_path) (store_read C store last_ckpt_path) ;;
  call EvTorchLoad (torch_load C ckpt).

(** Lines 227-229 of [_fit_on_prepared_data]. *)
Definition resolve_last_checkpoint_state (self : Params) (run_id : pyval) : M pyval :=
  has <- _has_checkpoint self run_id ;;
  if has then _load_checkpoint self run_id else ret PNone.

(** [_get_model_kwargs] (lines 269-277), in the order of the [dict]. *)
Definition _get_model_kwargs (self : Params) (model history optimizer run_id metadata : pyval)
  : M (list (string * pyval)) :=
  feature_cols <- get self "feature_cols" ;;
  input_shapes <- get self "input_shapes" ;;
  label_cols <- get self "label_cols" ;;
  ret [("history", history); ("model", model); ("optimizer", optimizer);
       ("feature_columns", feature_cols); ("input_shapes", input_shapes);
       ("label_columns", label_cols); ("run_id", run_id); ("_metadata", metadata)].

(** [_create_model] (lines 254-264). *)
Definition _create_model (self : Params) (run_results : list RunResult)
  (run_id metadata : pyval) : M Params :=
  rr <- lift (match run_results with
              | rr :: _ => Ok rr
              | [] => Err (IndexError "list index out of range")
              end) ;;
  let history := rr_history rr in
  model <- call EvLoadsBase64 (codec_loads_base64 C (rr_serialized_model rr)) ;;
  optimizer_bio <- call EvLoadsBase64 (codec_loads_base64 C (rr_serialized_optimizer rr)) ;;
  opt <- call EvTorchLoadCpu (torch_load_cpu C optimizer_bio) ;;
  kwargs <- _get_model_kwargs self model history opt run_id metadata ;;
  lift (TorchModel_init kwargs).

(** [_fit_on_prepared_data] (lines 216-237). *)
Definition _fit_on_prepared_data (self : Params) (backend train_rows val_rows metadata
  avg_row_size : pyval) : M Params :=
  model_pre_train <- get self "model" ;;
  if negb (truthy model_pre_train) then raise (ValueError "Model parameter is required")
  else
  _check_model_compatibility self metadata ;;;
  run_id <- get self "run_id" ;;
  let run_id := if is_none run_id
                then PStr ("pytorch_" +:+ pretty (time_now C)) else run_id in
  last_checkpoint_state <- resolve_last_checkpoint_state self run_id ;;
  serialized_model <- call EvSerialize (util_serialize C model_pre_train) ;;
  let trainer := {| trainer_estimator := self; trainer_metadata := metadata;
                    trainer_last_checkpoint_state := last_checkpoint_state;
                    trainer_run_id := run_id |} in
  handle <- call (EvRun backend trainer)
                 (backend_run C backend trainer
                    (serialized_model, train_rows, val_rows, avg_row_size)) ;;
  _create_model self handle run_id metadata.

Definition num_proc_backend_msg : string :=
  "Exactly one of parameters " +:+ dq +:+ "num_processes" +:+ dq +:+ " and "
  +:+ dq +:+ "backend" +:+ dq +:+ " must be specified".

(** Lines 194-201 of [_fit]: returns the resolved [(backend, num_processes)]. *)
Definition resolve_backend (backend num_processes : pyval) : M (pyval * pyval) :=
  if Bool.eqb (is_none num_processes) (is_none backend) then
    raise (ValueError num_proc_backend_msg)
  else if is_none backend then
    b <- call (EvSparkBackend num_processes) (SparkBackend C num_processes) ;;
    ret (b, num_processes)
  else if is_none num_processes then
    n <- call (EvNumProcesses backend) (backend_num_processes C backend) ;;
    ret (backend, n)
  else ret (backend, num_processes).

(** [_fit] (lines 184-214). *)
Definition _fit (self : Params) (df : pyval) : M Params :=
  validation_split <- get self "validation_split" ;;
  validation_col <- get self "validation_col" ;;
  backend <- get self "backend" ;;
  store <- get self "store" ;;
  label_columns <- get self "label_cols" ;;
  feature_columns <- get self "feature_cols" ;;
  sample_weight_col <- get self "sample_weight_col" ;;
  partitions_per_process <- get self "partitions_per_process" ;;
  num_processes <- get self "num_proc" ;;
  '(backend, num_processes) <- resolve_backend backend num_processes ;;
  '(train_rows, val_rows, metadata, avg_row_size) <-
     call (EvPrepareData num_processes)
          (prepare_data C num_processes store df label_columns feature_columns
             validation_col validation_split sample_weight_col partitions_per_process) ;;
  _fit_on_prepared_data self backend train_rows val_rows metadata avg_row_size.

End Fit.

(* ------------------------------------------------------------------ *)
(** ** Parameter persistence (lines 41-73) *)

(** [_torch_param_serialize] *)
Definition _torch_param_serialize (C : Collab) (param_name : string) (param_val : pyval) : pyval :=
  if existsb (String.eqb param_name) ["backend"; "store"] then PNone
  else if is_none param_val then PNone
  else codec_dumps_base64 C param_val.

(** [TorchEstimatorParamsReader._deserialize_dict]: a dict is an ordered
    list of items with distinct keys. *)
Definition _deserialize_dict (C : Collab) (dict_values : list (string * pyval))
  : result (list (string * pyval)) :=
  map_result (fun kv =>
                if is_none kv.2 then Ok (kv.1, PNone)
                else match codec_loads_base64 C kv.2 with
                     | Ok v => Ok (kv.1, v)
                     | Err e => Err e
                     end) dict_values.

(* ------------------------------------------------------------------ *)
(** ** [TorchModel._transform]: decoding one prediction (lines 359-381) *)

(** Spark data types of the label columns. *)
Inductive spark_type : Type :=
| DenseVector | SparseVector
| IntegerType | LongType | FloatType | DoubleType.

Inductive python_type : Type := PyInt | PyFloat.

(** Modelled from the spec: [util.spark_scalar_to_python_type] (in
    horovod/spark/common/util.py, not among the sources); the spec only
    says that integral spark types are decoded as integral Python values. *)
Definition spark_scalar_to_python_type (t : spark_type) : result python_type :=
  match t with
  | IntegerType | LongType => Ok PyInt
  | FloatType | DoubleType => Ok PyFloat
  | _ => Err (ValueError "not a scalar type")
  end.

(** [issubclass(python_type, numbers.Integral)] *)
Definition is_integral (t : python_type) : bool :=
  match t with PyInt => true | PyFloat => false end.

(** Python 3 [round(x)] on a float: nearest integer, ties to even. *)
Definition py_round (q : Q) : Z :=
  let f := Qfloor q in
  match Qcompare (q - inject_Z f) (1 # 2) with
  | Lt => f
  | Gt => f + 1
  | Eq => if Z.even f then f else f + 1
  end.

(** [python_type(value)]: [int(x)] truncates a float towards zero. *)
Definition py_cast (t : python_type) (v : pyval) : result pyval :=
  match t, v with
  | PyInt, PInt z => Ok (PInt z)
  | PyInt, PFloat q => Ok (PInt (Z.quot (Qnum q) (Zpos (Qden q))))
  | PyFloat, PInt z => Ok (PFloat (inject_Z z))
  | PyFloat, PFloat q => Ok (PFloat q)
  | _, _ => Err (TypeError "cannot convert")
  end.

(** Column metadata: [{'spark_data_type': ..., 'shape': ...}]. *)
Record ColMeta : Type := {
  spark_data_type : spark_type;
  shape : nat
}.

(** A prediction tensor of one row, by its flattened float values. *)
Definition tensor : Type := list Q.

(** [pred.reshape(shape)] into a 1-d tensor. *)
Definition reshape (t : tensor) (n : nat) : result tensor :=
  if Nat.eqb (length t) n then Ok t
  else Err (RuntimeError "shape is invalid for input size").

(** [pred.item()] *)
Definition item (t : tensor) : result Q :=
  match t with
  | [x] => Ok x
  | _ => Err (RuntimeError "a Tensor with several elements cannot be converted to Scalar")
  end.

(** [torch.Tensor.nonzero()] of a 1-d tensor: a 2-d tensor of shape
    (z, 1) with one row [[i]] per nonzero element, in order. *)
Fixpoint nonzero_from (i : nat) (t : tensor) : list (list nat) :=
  match t with
  | [] => []
  | x :: t' => if Qeq_bool x 0 then nonzero_from (S i) t'
               else [i] :: nonzero_from (S i) t'
  end.
Definition nonzero (t : tensor) : list (list nat) := nonzero_from 0 t.

(** [t[0]] on a 2-d tensor: its first row. *)
Definition row0 (rows : list (list nat)) : result (list nat) :=
  match rows with
  | r :: _ => Ok r
  | [] => Err (IndexError "index 0 is out of bounds for dimension 0 with size 0")
  end.

(** [t[idx]] with an index tensor. *)
Definition index_select (t : tensor) (idx : list nat) : result tensor :=
  map_result (fun i => match t !! i with
                       | Some x => Ok x
                       | None => Err (IndexError "index out of range")
                       end) idx.

(** The value stored in an output column. *)
Inductive field : Type :=
| FScalar (v : pyval)
| FDenseVector (values : list Q)
| FSparseVector (size : nat) (indices : list nat) (values : list Q).

(** Lines 360-379 for one [(label_col, output_col, pred)]. *)
Definition decode_prediction (meta : ColMeta) (pred : tensor) : result field :=
  match spark_data_type meta with
  | DenseVector =>
      rbind (reshape pred (shape meta)) (fun flattened_pred =>
      Ok (FDenseVector flattened_pred))
  | SparseVector =>
      rbind (reshape pred (shape meta)) (fun flattened_pred =>
      rbind (row0 (nonzero flattened_pred)) (fun nonzero_indices =>
      rbind (index_select flattened_pred nonzero_indices) (fun values =>
      Ok (FSparseVector (shape meta) nonzero_indices values))))
  | col_type =>
      rbind (item pred) (fun value =>
      rbind (spark_scalar_to_python_type col_type) (fun pt =>
      let value := if is_integral pt then PInt (py_round value) else PFloat value in
      rbind (py_cast pt value) (fun v => Ok (FScalar v))))
  end.

(** The loop of lines 359-381: the new output fields of one row. *)
Fixpoint predict_fields (metadata : gmap string ColMeta)
  (label_cols output_cols : list string) (preds : list tensor)
  : result (list (string * field)) :=
  match label_cols, output_cols, preds with
  | l :: ls, o :: os, p :: ps =>
      match metadata !! l with
      | None => Err (KeyError l)
      | Some meta =>
          rbind (decode_prediction meta p) (fun f =>
          rbind (predict_fields metadata ls os ps) (fun rest => Ok ((o, f) :: rest)))
      end
  | _, _, _ => Ok []
  end.

(* ------------------------------------------------------------------ *)
(** ** [getOptimizer] (lines 145-155 and 314-324) over torch objects *)

(** A parameter group of a torch optimizer: its options ([lr], ...) and
    its parameters (by object id). *)
Definition param_group : Type := (gmap string Q * list nat)%type.

(** [torch.optim.Optimizer]: its class, [param_groups] and [state]
    (parameter id to per-parameter state; the state values are opaque). *)
Record Optimizer : Type := {
  opt_class : nat;
  param_groups : list param_group;
  opt_state : gmap nat nat
}.

(** The result of [Optimizer.state_dict()]: parameters replaced by
    their position, in [param_groups] and as keys of [state]. *)
Record StateDict : Type := {
  sd_state : gmap nat nat;
  sd_param_groups : list param_group
}.

(** Objects reachable from the params: torch modules (with the ids of
    [model.parameters()]) and optimizers. *)
Inductive heapobj : Type :=
| HModule (parameters : list nat)
| HOptimizer (o : Optimizer).

(** A dict built by inserting renamed items (keys are distinct after
    renaming for the optimizers considered). *)
Definition rename_keys (f : nat -> nat) (m : gmap nat nat) : gmap nat nat :=
  list_to_map (map (fun kv => (f kv.1, kv.2)) (map_to_list m)).

(** [param_mappings.update({id(p): i ... if id(p) not in param_mappings})] *)
Definition pack_step (m : gmap nat nat) (pi : nat * nat) : gmap nat nat :=
  match m !! pi.1 with
  | Some _ => m
  | None => <[pi.1 := pi.2]> m
  end.

(** [pack_group] of [Optimizer.state_dict]: new parameters get the next
    indices from [start]; the packed [params] are looked up afterwards. *)
Definition pack_group (mapping : gmap nat nat) (start : nat) (g : param_group)
  : gmap nat nat * param_group :=
  let mapping' := foldl pack_step mapping (zip g.2 (seq start (length g.2))) in
  (mapping', (g.1, map (fun p => default 0 (mapping' !! p)) g.2)).

Fixpoint pack_groups (mapping : gmap nat nat) (start : nat) (gs : list param_group)
  : gmap nat nat * list param_group :=
  match gs with
  | [] => (mapping, [])
  | g :: gs' =>
      let '(m', pg) := pack_group mapping start g in
      let '(m'', pgs) := pack_groups m' (start + length g.2) gs' in
      (m'', pg :: pgs)
  end.

(** [Optimizer.state_dict()]; a state key that is no parameter of any
    group raises [KeyError]. *)
Definition state_dict (o : Optimizer) : result StateDict :=
  let '(mapping, groups) := pack_groups ∅ 0 (param_groups o) in
  if forallb (fun kv => bool_decide (is_Some (mapping !! kv.1))) (map_to_list (opt_state o))
  then Ok {| sd_state := rename_keys (fun k => default 0 (mapping !! k)) (opt_state o);
             sd_param_groups := groups |}
  else Err (KeyError "param").

(** [optimizer_cls(params, lr=1)]: one parameter group holding all the
    parameters, the class defaults with [lr] = 1, empty state. *)
Definition construct_optimizer (defaults : nat -> gmap string Q) (cls : nat)
  (params : list nat) : result Optimizer :=
  match params with
  | [] => Err (ValueError "optimizer got an empty parameter list")
  | _ => Ok {| opt_class := cls;
               param_groups := [(<["lr" := 1%Q]> (defaults cls), params)];
               opt_state := ∅ |}
  end.

(** [dict(zip(keys, values))]: a later duplicate key wins. *)
Definition dict_set_item (m : gmap nat nat) (kv : nat * nat) : gmap nat nat :=
  <[kv.1 := kv.2]> m.
Definition dict_zip (keys vals : list nat) : gmap nat nat :=
  foldl dict_set_item ∅ (zip keys vals).

(** [Optimizer.load_state_dict(state_dict)]: checks the group structure,
    maps saved indices to the current parameters (keys that are no saved
    index are kept; [_cast] moves a state value to its parameter's device
    and leaves the value as it is), and takes the options of the saved
    groups with the current parameters. *)
Definition load_state_dict (self : Optimizer) (sd : StateDict) : result Optimizer :=
  let groups := param_groups self in
  let saved_groups := sd_param_groups sd in
  if negb (Nat.eqb (length groups) (length saved_groups)) then
    Err (ValueError "loaded state dict has a different number of parameter groups")
  else if existsb (fun pq => negb (Nat.eqb (length pq.1.2) (length pq.2.2)))
                  (zip groups saved_groups) then
    Err (ValueError "loaded state dict contains a parameter group that doesn't match the size of optimizer's group")
  else
    let id_map := dict_zip (concat (map snd saved_groups)) (concat (map snd groups)) in
    let state := rename_keys (fun k => default k (id_map !! k)) (sd_state sd) in
    let new_groups := map (fun gs => (gs.2.1, gs.1.2)) (zip groups saved_groups) in
    Ok {| opt_class := opt_class self; param_groups := new_groups; opt_state := state |}.

Section GetOptimizer.
Variable optimizer_defaults : nat -> gmap string Q.

Definition deref_optimizer (h : gmap nat heapobj) (v : pyval) : result Optimizer :=
  match v with
  | PObj i => match h !! i with
              | Some (HOptimizer o) => Ok o
              | _ => Err (AttributeError "object has no attribute 'state_dict'")
              end
  | _ => Err (AttributeError "object has no attribute 'state_dict'")
  end.

(** [model.parameters()] *)
Definition model_parameters (h : gmap nat heapobj) (v : pyval) : result (list nat) :=
  match v with
  | PObj i | PSized i _ => match h !! i with
              | Some (HModule ps) => Ok ps
              | _ => Err (AttributeError "object has no attribute 'parameters'")
              end
  | _ => Err (AttributeError "object has no attribute 'parameters'")
  end.

(** [TorchEstimator.getOptimizer] and [TorchModel.getOptimizer] have the
    same body; a new optimizer is a new object of the heap. *)
Definition getOptimizer (h : gmap nat heapobj) (self : Params)
  : result (gmap nat heapobj * pyval) :=
  rbind (getModel self) (fun model =>
  if truthy model then
    rbind (_get_optimizer self) (fun optimizer =>
    rbind (deref_optimizer h optimizer) (fun o =>
    let optimizer_cls := opt_class o in
    rbind (state_dict o) (fun optimizer_state =>
    rbind (model_parameters h model) (fun params =>
    rbind (construct_optimizer optimizer_defaults optimizer_cls params) (fun optimzer =>
    rbind (load_state_dict optimzer optimizer_state) (fun optimzer =>
    let i := fresh (dom h) in
    Ok (<[i := HOptimizer optimzer]> h, PObj i)))))))
  else rbind (_get_optimizer self) (fun o => Ok (h, o))).

Definition TorchEstimator_getOptimizer := getOptimizer.
Definition TorchModel_getOptimizer := getOptimizer.

End GetOptimizer.

(* ------------------------------------------------------------------ *)
(** ** A concrete set of collaborators, used to run the code on examples *)

Definition demo_run_results : list RunResult :=
  [{| rr_history := PInt 0; rr_serialized_model := PObj 11; rr_serialized_optimizer := PObj 12 |};
   {| rr_history := PInt 1; rr_serialized_model := PObj 21; rr_serialized_optimizer := PObj 22 |};
   {| rr_history := PInt 2; rr_serialized_model := PObj 31; rr_serialized_optimizer := PObj 32 |}].

Definition demo_collab : Collab := {|
  SparkBackend := fun _ => Ok (PObj 100);
  backend_num_processes := fun _ => Ok (PInt 4);
  prepare_data := fun _ _ _ _ _ _ _ _ _ => Ok (PObj 201, PObj 202, PObj 203, PInt 1000);
  check_shape_compatibility := fun _ _ _ _ => Ok tt;
  time_now := 1570000000%Z;
  store_get_checkpoint_path := fun _ run_id =>
    match run_id with PStr "R1" => Ok (PStr "/ckpt/R1") | _ => Ok PNone end;
  store_exists := fun _ path =>
    match path with PStr "/ckpt/R1" => Ok true | _ => Ok false end;
  store_read := fun _ _ => Ok (PObj 300);
  torch_load := fun _ => Ok (PObj 301);
  torch_load_cpu := fun b => match b with PObj n => Ok (PObj (n + 1000)) | v => Ok v end;
  util_serialize := fun _ => Ok (PObj 303);
  codec_loads_base64 := fun v => match v with PObj n => Ok (PObj (n + 500)) | v => Ok v end;
  codec_dumps_base64 := fun v => v;
  backend_run := fun _ _ _ => Ok demo_run_results
|}.

(** [self] right after [super().__init__()] and [_setDefault(loss_constructor=None)]
    in [TorchEstimator.__init__]. *)
Definition TorchEstimator_defaults : Params :=
  _setDefault EstimatorParams_init [("loss_constructor", PNone)].

(** A computation only appends to the trace. *)
Definition extends {A} (m : M A) : Prop :=
  forall tr, exists rest, fst (m tr) = tr ++ rest.

(** The [param_mappings] that [state_dict] builds for a single group. *)
Definition pack_mapping (l : list nat) : gmap nat nat :=
  foldl pack_step ∅ (zip l (seq 0 (length l))).

(** A heap with a module (parameters 10 and 11) at id 1 and a stored
    optimizer with the given groups and state for parameter 20 at id 2. *)
Definition demo_opt_heap (groups : list param_group) : gmap nat heapobj :=
  <[1 := HModule [10; 11]]> (<[2 := HOptimizer {| opt_class := 7; param_groups := groups;
                                                  opt_state := <[20 := 5]> ∅ |}]> ∅).

(* ------------------------------------------------------------------ *)
(** ** The rest of [EstimatorParams] (params.py) *)

(** Python [v > 0] against the int [0]: [bool] compares as an int;
    [None], strings, lists and other objects raise [TypeError]. *)
Definition py_gt_zero (v : pyval) : result bool :=
  match v with
  | PBool b => Ok b
  | PInt z => Ok (Z.ltb 0 z)
  | PFloat q => Ok (negb (Qle_bool q 0))
  | _ => Err (TypeError "'>' not supported between instances")
  end.

(** [_should_validate] (params.py lines 97-98); [or] short-circuits. *)
Definition _should_validate (self : Params) : result bool :=
  rbind (getOrDefault self "validation_col") (fun validation_col =>
  if negb (is_none validation_col) then Ok true
  else rbind (getOrDefault self "validation_split") py_gt_zero).

(** [setX(value)] of a [TorchEstimator] (the setters of [EstimatorParams]
    and [TorchEstimator]): [self._set(x=value)]. *)
Definition set_param (self : Params) (name : string) (value : pyval) : result Params :=
  _set TorchEstimator_params self [(name, value)].

(* ------------------------------------------------------------------ *)
(** ** [TorchEstimator._fit_on_parquet] (lines 169-182) *)

Section Parquet.
Variable C : Collab.
(** [util.get_simple_meta_from_parquet(store, label_columns, feature_columns,
    sample_weight_col)]; it is not one of the calls recorded in the trace. *)
Variable get_simple_meta_from_parquet :
  pyval -> pyval -> pyval -> pyval -> result (pyval * pyval * pyval * pyval).

Definition _fit_on_parquet (self : Params) : M Params :=
  backend <- get self "backend" ;;
  store <- get self "store" ;;
  label_columns <- get self "label_cols" ;;
  feature_columns <- get self "feature_cols" ;;
  sample_weight_col <- get self "sample_weight_col" ;;
  '(train_rows, val_rows, metadata, avg_row_size) <-
     lift (get_simple_meta_from_parquet store label_columns feature_columns sample_weight_col) ;;
  _fit_on_prepared_data C self backend train_rows val_rows metadata avg_row_size.

End Parquet.

(** The collaborator calls [_fit] makes before [_fit_on_prepared_data]:
    resolving the backend and preparing the data. *)
Definition pre_fit_event (ev : event) : bool :=
  match ev with
  | EvSparkBackend _ | EvNumProcesses _ | EvPrepareData _ => true
  | _ => false
  end.

(** A computation appends to the trace only events satisfying [P]. *)
Definition appends_only {A} (P : event -> Prop) (m : M A) : Prop :=
  forall tr, exists rest, fst (m tr) = tr ++ rest /\ Forall P rest.

(* ------------------------------------------------------------------ *)
(** ** One row of [TorchModel._transform.predict] (lines 347-383) *)

(** What [model( *data)] returns: one tensor, or a list or tuple of them. *)
Inductive model_output : Type :=
| OutTensor (t : tensor)
| OutSeq (ts : list tensor).

(** Lines 356-357: a single prediction is wrapped in a list. *)
Definition as_preds (preds : model_output) : list tensor :=
  match preds with
  | OutTensor t => [t]
  | OutSeq ts => ts
  end.

(** A cell of an output row: an input value, or a decoded prediction. *)
Inductive cell : Type :=
| CVal (v : pyval)
| CField (f : field).

(** Lines 348 and 355-383 for one row, given the model's output:
    [fields = row.asDict().copy()], then [fields[output_col] = field] for
    each decoded prediction, in order. *)
Definition predict_row (metadata : gmap string ColMeta) (label_cols output_cols : list string)
  (row : gmap string pyval) (preds : model_output) : result (gmap string cell) :=
  rbind (predict_fields metadata label_cols output_cols (as_preds preds)) (fun new_fields =>
  Ok (foldl (fun fields of => <[of.1 := CField of.2]> fields) (CVal <$> row) new_fields)).

(* ------------------------------------------------------------------ *)
(** ** More collaborators for examples *)

(** [demo_collab] with a codec whose [loads_base64] inverts [dumps_base64]. *)
Definition b64_collab : Collab := {|
  SparkBackend := SparkBackend demo_collab;
  backend_num_processes := backend_num_processes demo_collab;
  prepare_data := prepare_data demo_collab;
  check_shape_compatibility := check_shape_compatibility demo_collab;
  time_now := time_now demo_collab;
  store_get_checkpoint_path := store_get_checkpoint_path demo_collab;
  store_exists := store_exists demo_collab;
  store_read := store_read demo_collab;
  torch_load := torch_load demo_collab;
  torch_load_cpu := torch_load_cpu demo_collab;
  util_serialize := util_serialize demo_collab;
  codec_loads_base64 := fun v => match v with
                                 | PTuple [PStr "b64"; w] => Ok w
                                 | _ => Err (ValueError "Incorrect padding")
                                 end;
  codec_dumps_base64 := fun v => PTuple [PStr "b64"; v];
  backend_run := backend_run demo_collab
|}.

(** [demo_collab] whose shape check rejects the metadata. *)
Definition shape_error_collab : Collab := {|
  SparkBackend := SparkBackend demo_collab;
  backend_num_processes := backend_num_processes demo_collab;
  prepare_data := prepare_data demo_collab;
  check_shape_compatibility := fun _ _ _ _ => Err (ValueError "shape mismatch");
  time_now := time_now demo_collab;
  store_get_checkpoint_path := store_get_checkpoint_path demo_collab;
  store_exists := store_exists demo_collab;
  store_read := store_read demo_collab;
  torch_load := torch_load demo_collab;
  torch_load_cpu := torch_load_cpu demo_collab;
  util_serialize := util_serialize demo_collab;
  codec_loads_base64 := codec_loads_base64 demo_collab;
  codec_dumps_base64 := codec_dumps_base64 demo_collab;
  backend_run := backend_run demo_collab
|}.

(* ================================================================== *)
(** * Properties *)

(** ** Lookups after [_set] *)

Lemma py_set_default_map (p : Params) kw : default_map (py_set p kw) = default_map p.
Proof. revert p. induction kw as [|kv kw IH]; intros p; [done|]. simpl. by rewrite IH. Qed.

Lemma py_set_lookup_notin (p : Params) kw k :
  kw_in k kw = false -> param_map (py_set p kw) !! k = param_map p !! k.
Proof.
  revert p. induction kw as [|[k' v'] kw IH]; intros p Hin; [done|].
  simpl in *. apply orb_false_iff in Hin as [Hk Hin].
  rewrite IH by done. simpl. apply lookup_insert_ne.
  intros ->. by rewrite String.eqb_refl in Hk.
Qed.

Lemma py_set_lookup_in (p : Params) kw k v :
  kw_in k kw = true -> (forall kv, In kv kw -> kv.1 = k -> kv.2 = v) ->
  param_map (py_set p kw) !! k = Some v.
Proof.
  revert p. induction kw as [|[k' v'] kw IH]; intros p Hin Hall; [done|].
  simpl in *. destruct (kw_in k kw) eqn:Hkw.
  - apply IH; [done|]. intros kv Hkv. apply Hall. by right.
  - rewrite py_set_lookup_notin by done. simpl.
    rewrite orb_false_r in Hin. apply String.eqb_eq in Hin as ->.
    rewrite lookup_insert_eq. f_equal. apply (Hall (k, v')); [by left|done].
Qed.

(** [_set] converts the values one by one, then stores them. *)
Lemma _set_conv_spec params kw kw' :
  map_result (fun kv => rbind (param_value params kv.1 kv.2) (fun v => Ok (kv.1, v))) kw
    = Ok kw' ->
  Forall2 (fun kv kv' => kv'.1 = kv.1 /\ param_value params kv.1 kv.2 = Ok kv'.2) kw kw'.
Proof.
  revert kw'. induction kw as [|[k v] kw IH]; intros kw' H; simpl in H.
  - injection H as <-. constructor.
  - destruct (param_value params k v) as [v'|e] eqn:Hv; [|discriminate]. simpl in H.
    destruct (map_result _ kw) as [ys|e]; [|discriminate].
    injection H as <-. constructor; [done|]. by apply IH.
Qed.

Lemma _set_inv params p kw p' :
  _set params p kw = Ok p' ->
  exists kw', p' = py_set p kw' /\
    Forall2 (fun kv kv' => kv'.1 = kv.1 /\ param_value params kv.1 kv.2 = Ok kv'.2) kw kw'.
Proof.
  unfold _set. destruct (map_result _ kw) as [kw'|e] eqn:H; [|discriminate].
  simpl. intros [= <-]. exists kw'. split; [done|]. by apply _set_conv_spec.
Qed.

Lemma _set_total params p kw :
  (forall kv, In kv kw -> is_ok (param_value params kv.1 kv.2) = true) ->
  exists p', _set params p kw = Ok p'.
Proof.
  unfold _set. intros Hall.
  assert (exists kw', map_result (fun kv => rbind (param_value params kv.1 kv.2)
                                   (fun v => Ok (kv.1, v))) kw = Ok kw') as [kw' ->].
  { induction kw as [|[k v] kw IH]; simpl; [eauto|].
    destruct IH as [kw' ->]. { intros kv Hkv. apply Hall. by right. }
    specialize (Hall (k, v) (or_introl eq_refl)). simpl in Hall.
    destruct (param_value params k v); [eauto|discriminate]. }
  simpl. eauto.
Qed.

Lemma conv_kw_in params kw kw' k :
  Forall2 (fun kv kv' => kv'.1 = kv.1 /\ param_value params kv.1 kv.2 = Ok kv'.2) kw kw' ->
  kw_in k kw' = kw_in k kw.
Proof. induction 1 as [|kv kv' kw kw' [Hk _] _ IH]; simpl; [done|]. by rewrite Hk, IH. Qed.

Lemma conv_values params kw kw' k v0 v :
  Forall2 (fun kv kv' => kv'.1 = kv.1 /\ param_value params kv.1 kv.2 = Ok kv'.2) kw kw' ->
  (forall kv, In kv kw -> kv.1 = k -> kv.2 = v0) -> param_value params k v0 = Ok v ->
  forall kv', In kv' kw' -> kv'.1 = k -> kv'.2 = v.
Proof.
  induction 1 as [|kv kv' kw kw' [Hk Hv] _ IH]; intros Hall H0 kv'' Hin Hk''; [done|].
  destruct Hin as [<-|Hin].
  - assert (kv.2 = v0) as E by (apply Hall; [by left|congruence]).
    assert (kv.1 = k) as E' by congruence. rewrite E, E' in Hv. congruence.
  - apply IH; [|done|done|done]. intros. apply Hall; [by right|done].
Qed.

Lemma conv_exists params kw kw' k v0 :
  Forall2 (fun kv kv' => kv'.1 = kv.1 /\ param_value params kv.1 kv.2 = Ok kv'.2) kw kw' ->
  kw_in k kw = true -> (forall kv, In kv kw -> kv.1 = k -> kv.2 = v0) ->
  exists v, param_value params k v0 = Ok v.
Proof.
  induction 1 as [|kv kv' kw kw' [Hk Hv] _ IH]; intros Hin Hall; [done|].
  simpl in Hin. destruct (String.eqb kv.1 k) eqn:E.
  - apply String.eqb_eq in E.
    assert (kv.2 = v0) by (apply Hall; [by left|done]). subst. eauto.
  - apply IH; [done|]. intros. apply Hall; [by right|done].
Qed.

(** A param passed to [_set] reads its converted value afterwards; the
    others and the defaults are unchanged. *)
Lemma _set_lookup_in params p kw p' k v0 v :
  _set params p kw = Ok p' -> kw_in k kw = true ->
  (forall kv, In kv kw -> kv.1 = k -> kv.2 = v0) -> param_value params k v0 = Ok v ->
  getOrDefault p' k = Ok v.
Proof.
  intros Hs Hin Hall Hv. destruct (_set_inv _ _ _ _ Hs) as (kw' & -> & HF).
  unfold getOrDefault. rewrite (py_set_lookup_in _ _ _ v); [done| |].
  - by rewrite (conv_kw_in _ _ _ _ HF).
  - by apply (conv_values _ _ _ _ v0 _ HF).
Qed.

Lemma _set_passed params p kw p' k v0 :
  _set params p kw = Ok p' -> kw_in k kw = true ->
  (forall kv, In kv kw -> kv.1 = k -> kv.2 = v0) ->
  exists v, param_value params k v0 = Ok v /\ getOrDefault p' k = Ok v.
Proof.
  intros Hs Hin Hall. destruct (_set_inv _ _ _ _ Hs) as (kw' & _ & HF).
  destruct (conv_exists _ _ _ _ _ HF Hin Hall) as [v Hv].
  exists v. split; [done|]. by apply (_set_lookup_in params p kw _ _ v0).
Qed.

Lemma _set_lookup_notin params p kw p' k :
  _set params p kw = Ok p' -> kw_in k kw = false -> getOrDefault p' k = getOrDefault p k.
Proof.
  intros Hs Hin. destruct (_set_inv _ _ _ _ Hs) as (kw' & -> & HF).
  unfold getOrDefault. rewrite py_set_lookup_notin by (by rewrite (conv_kw_in _ _ _ _ HF)).
  by rewrite py_set_default_map.
Qed.

Lemma _set_default_map params p kw p' :
  _set params p kw = Ok p' -> default_map p' = default_map p.
Proof.
  intros Hs. destruct (_set_inv _ _ _ _ Hs) as (kw' & -> & _). apply py_set_default_map.
Qed.

(** A param whose converter is the identity keeps the value passed. *)
Lemma param_value_identity params k v :
  (exists pc, List.find (fun pc => String.eqb pc.1 k) params = Some pc /\
              pc.2 = TypeConverters.identity) ->
  param_value params k v = Ok v.
Proof.
  intros (pc & Hf & Hc). unfold param_value. rewrite Hf, Hc. simpl.
  by destruct (is_none v).
Qed.

Lemma param_value_None params k :
  is_ok (param_value params k PNone) = true ->
  param_value params k PNone = Ok PNone.
Proof. unfold param_value. by destruct (List.find _ _). Qed.

(** With a known name, [param_value] raises only [TypeError]. *)
Lemma param_value_err params k v e :
  k ∈ params.*1 -> param_value params k v = Err e -> exists msg, e = TypeError msg.
Proof.
  intros Hk. unfold param_value.
  destruct (List.find (fun pc => String.eqb pc.1 k) params) as [pc|] eqn:Hf.
  - destruct (is_none v); [discriminate|].
    destruct (convert pc.2 v) as [v'|e'] eqn:Hc; [discriminate|].
    assert (exists m, e' = TypeError m) as [m ->]
      by (revert Hc; destruct pc as [k' []], v; simpl; repeat case_match;
          intros [= <-]; eauto).
    intros [= <-]. eauto.
  - exfalso. apply list_elem_of_In in Hk. apply in_map_iff in Hk as [[k' c] [<- Hin]].
    eapply find_none in Hf; [|exact Hin]. simpl in Hf. by rewrite String.eqb_refl in Hf.
Qed.

(** [_set] with known names and a value its converter rejects raises
    [TypeError]. *)
Lemma _set_type_error params p kw :
  (forall kv, In kv kw -> kv.1 ∈ params.*1) ->
  (exists kv, In kv kw /\ is_ok (param_value params kv.1 kv.2) = false) ->
  exists msg, _set params p kw = Err (TypeError msg).
Proof.
  unfold _set. intros Hn Hbad.
  assert (exists msg, map_result (fun kv => rbind (param_value params kv.1 kv.2)
                        (fun v => Ok (kv.1, v))) kw = Err (TypeError msg)) as [msg ->]
    by (induction kw as [|[k v] kw IH]; [by destruct Hbad as (? & [] & _)|]; simpl;
        destruct (param_value params k v) as [v'|e] eqn:Hv;
        [ simpl; destruct IH as [msg ->];
          [ intros; apply Hn; by right
          | destruct Hbad as (kv & [<-|Hin] & Hb); [simpl in Hb; by rewrite Hv in Hb|eauto]
          | eauto ]
        | simpl; destruct (param_value_err params k v e) as [msg ->];
          [apply (Hn (k, v)); by left|done|eauto] ]).
  simpl. eauto.
Qed.

Lemma kw_update_in k v kw : kw_in k (kw_update k v kw) = kw_in k kw.
Proof.
  induction kw as [|[k' v'] kw IH]; [done|]. simpl.
  destruct (String.eqb k' k) eqn:E; simpl; rewrite ?String.eqb_refl, ?E, IH; done.
Qed.

Lemma kw_update_values k v kw kv :
  In kv (kw_update k v kw) -> kv.1 = k -> kv.2 = v.
Proof.
  induction kw as [|[k' v'] kw IH]; [done|]. simpl.
  destruct (String.eqb k' k) eqn:E; intros [<-|H] Hk; auto.
  simpl in Hk. subst. by rewrite String.eqb_refl in E.
Qed.

Lemma kw_update_notin k k' v kw :
  kw_in k' kw = false -> kw_in k' (kw_update k v kw) = false.
Proof.
  induction kw as [|[k'' v'] kw IH]; [done|]. simpl.
  intros [H1 H2]%orb_false_iff.
  destruct (String.eqb k'' k) eqn:E; simpl; rewrite IH by done.
  - apply String.eqb_eq in E. subst. by rewrite H1.
  - by rewrite H1.
Qed.

Lemma kw_update_in_any k k' v kw : kw_in k' (kw_update k v kw) = kw_in k' kw.
Proof.
  induction kw as [|[k0 v0] kw IH]; [done|]. simpl.
  destruct (String.eqb k0 k) eqn:E; simpl; rewrite IH; [|done].
  apply String.eqb_eq in E as ->. done.
Qed.

Lemma kw_update_other k k' v kw kv :
  In kv (kw_update k v kw) -> kv.1 = k' -> k' <> k -> In kv kw.
Proof.
  induction kw as [|[k0 v0] kw IH]; [done|]. simpl.
  destruct (String.eqb k0 k) eqn:E.
  - intros [<-|H] Hk Hne; [simpl in Hk; congruence|]. right. by apply IH.
  - intros [<-|H] Hk Hne; [by left|]. right. by apply IH.
Qed.

Lemma kw_update_cases k v kw kv :
  In kv (kw_update k v kw) -> In kv kw \/ kv = (k, v).
Proof.
  induction kw as [|[k0 v0] kw IH]; [done|]. simpl.
  destruct (String.eqb k0 k); intros [<-|H]; auto;
    destruct (IH H); auto.
Qed.

Lemma kw_update_keep k v kw kv :
  In kv kw -> kv.1 <> k -> In kv (kw_update k v kw).
Proof.
  induction kw as [|[k0 v0] kw IH]; [done|]. simpl.
  intros [<-|H] Hk.
  - left. simpl in Hk. destruct (String.eqb k0 k) eqn:E; [|done].
    apply String.eqb_eq in E. congruence.
  - right. by apply IH.
Qed.

Lemma existsb_elem_of k names : existsb (String.eqb k) names = true -> k ∈ names.
Proof.
  intros H. apply existsb_exists in H as (k' & Hin & E).
  apply String.eqb_eq in E as ->. by apply list_elem_of_In.
Qed.

Lemma elem_of_existsb k names : k ∈ names -> existsb (String.eqb k) names = true.
Proof.
  intros H. apply existsb_exists. exists k. split; [by apply list_elem_of_In|].
  apply String.eqb_refl.
Qed.

(** Deciding that every keyword is declared. *)
Lemma names_ok names (kw : list (string * pyval)) :
  forallb (fun kv : string * pyval => existsb (String.eqb kv.1) names) kw = true ->
  forall kv, In kv kw -> kv.1 ∈ names.
Proof.
  intros H kv Hin. apply existsb_elem_of.
  exact (proj1 (forallb_forall _ kw) H kv Hin).
Qed.

Lemma unexpected_keyword_none names kw :
  (forall kv, In kv kw -> kv.1 ∈ names) -> unexpected_keyword names kw = None.
Proof.
  intros H. unfold unexpected_keyword.
  destruct (List.find _ kw) as [kv|] eqn:Hf; [|done].
  apply find_some in Hf as [Hin Hb]. by rewrite elem_of_existsb in Hb by auto.
Qed.

Lemma unexpected_keyword_some names kw k :
  unexpected_keyword names kw = Some k -> k ∉ names.
Proof.
  unfold unexpected_keyword. destruct (List.find _ kw) as [kv|] eqn:Hf; [|done].
  intros [= <-]. apply find_some in Hf as [_ Hb]. intros Hk.
  by rewrite elem_of_existsb in Hb.
Qed.

Lemma kw_update_names k v kw kv :
  kw_in k kw = true -> In kv (kw_update k v kw) -> exists kv0, In kv0 kw /\ kv0.1 = kv.1.
Proof.
  intros Hk Hin. destruct (kw_update_cases _ _ _ _ Hin) as [H| ->]; [eauto|].
  apply existsb_exists in Hk as (kv0 & H & E). apply String.eqb_eq in E. eauto.
Qed.

(** A constructed estimator: the keyword arguments are all declared, and
    after the [loss] and [loss_constructor] wrapping they are set with
    [_set] on [TorchEstimator_defaults]. *)
Lemma TorchEstimator_init_shape kw est :
  TorchEstimator_init kw = Ok est ->
  unexpected_keyword TorchEstimator_arg_names kw = None /\
  exists kw', _set TorchEstimator_params TorchEstimator_defaults kw' = Ok est /\
    (forall k, kw_in k kw' = kw_in k kw) /\
    (forall k kv, k <> "loss" -> k <> "loss_constructor" -> In kv kw' -> kv.1 = k -> In kv kw).
Proof.
  unfold TorchEstimator_init, TorchEstimator_defaults.
  destruct (unexpected_keyword _ kw); [discriminate|].
  generalize (_setDefault EstimatorParams_init [("loss_constructor", PNone)]) as self.
  intros self.
  destruct (kw_in "loss" kw && kw_in "loss_constructor" kw); [discriminate|].
  intros H. split; [done|].
  eexists. split; [exact H|]. split.
  - intros k. destruct (_ && _); [rewrite kw_update_in_any|];
      (destruct (_ && _); [rewrite kw_update_in_any|]); done.
  - intros k kv H1 H2 Hin Hk.
    destruct (kw_in "loss" kw && _) eqn:E1; destruct (kw_in "loss_constructor" _ && _) eqn:E2;
      repeat match goal with
             | H : In kv (kw_update _ _ _) |- _ => apply (kw_update_other _ k) in H; [|done|done]
             end; done.
Qed.

Lemma TorchEstimator_init_default_map kw est :
  TorchEstimator_init kw = Ok est -> default_map est = default_map TorchEstimator_defaults.
Proof.
  intros Hi. destruct (TorchEstimator_init_shape _ _ Hi) as (_ & kw' & Hs & _).
  by apply _set_default_map in Hs.
Qed.

Lemma TorchEstimator_init_get kw est k :
  TorchEstimator_init kw = Ok est -> k ∈ (EstimatorParams_defaults.*1) ->
  exists v, getOrDefault est k = Ok v.
Proof.
  intros Hi Hk. unfold getOrDefault.
  destruct (param_map est !! k) as [v|]; [eauto|].
  rewrite (TorchEstimator_init_default_map _ _ Hi).
  apply list_elem_of_In in Hk. simpl in Hk.
  repeat (destruct Hk as [<-|Hk]; [eexists; reflexivity|]). done.
Qed.

(** A param passed to the constructor (other than the wrapped losses)
    reads its value as converted by the param's converter. *)
Lemma TorchEstimator_init_passed kw est k v :
  TorchEstimator_init kw = Ok est -> k <> "loss" -> k <> "loss_constructor" ->
  kw_in k kw = true -> (forall kv, In kv kw -> kv.1 = k -> kv.2 = v) ->
  exists v', param_value TorchEstimator_params k v = Ok v' /\ getOrDefault est k = Ok v'.
Proof.
  intros Hi H1 H2 Hin Hv.
  destruct (TorchEstimator_init_shape _ _ Hi) as (_ & kw' & Hs & Hk & Hkv).
  apply (_set_passed _ _ _ _ _ _ Hs).
  - by rewrite Hk.
  - intros kv Hkv' Heq. apply Hv; [|done]. by apply (Hkv k).
Qed.

Lemma TorchEstimator_init_not_passed kw est k :
  TorchEstimator_init kw = Ok est -> kw_in k kw = false ->
  getOrDefault est k = getOrDefault TorchEstimator_defaults k.
Proof.
  intros Hi Hin. destruct (TorchEstimator_init_shape _ _ Hi) as (_ & kw' & Hs & Hk & _).
  apply (_set_lookup_notin _ _ _ _ _ Hs). by rewrite Hk.
Qed.

Lemma TorchEstimator_defaults_get k v :
  In (k, v) EstimatorParams_defaults -> getOrDefault TorchEstimator_defaults k = Ok v.
Proof.
  intros H. simpl in H.
  repeat (destruct H as [H|H]; [injection H as <- <-; vm_compute; reflexivity|]). done.
Qed.

(** [_setDefault] converts the defaults too: each one is already a value
    of its param's type, which the converter keeps. *)
Lemma EstimatorParams_defaults_converted :
  Forall (fun kv => param_value TorchEstimator_params kv.1 kv.2 = Ok kv.2)
         EstimatorParams_defaults.
Proof. repeat constructor. Qed.

(** A [loss] or [loss_constructor] value is stored as it is. *)
Lemma param_value_loss v :
  param_value TorchEstimator_params "loss" v = Ok v /\
  param_value TorchEstimator_params "loss_constructor" v = Ok v.
Proof. unfold param_value. simpl. by destruct (is_none v). Qed.

(** The constructor succeeds when every keyword is declared, not both
    losses are passed, and every value is accepted by its converter. *)
Lemma TorchEstimator_init_total kw :
  (forall kv, In kv kw -> kv.1 ∈ TorchEstimator_arg_names) ->
  kw_in "loss" kw && kw_in "loss_constructor" kw = false ->
  (forall kv, In kv kw -> is_ok (param_value TorchEstimator_params kv.1 kv.2) = true) ->
  exists est, TorchEstimator_init kw = Ok est.
Proof.
  intros Hn Hb Hacc. unfold TorchEstimator_init.
  rewrite (unexpected_keyword_none _ _ Hn), Hb. apply _set_total.
  assert (Hacc' : forall k v kw, (k = "loss" \/ k = "loss_constructor") ->
            (forall kv, In kv kw -> is_ok (param_value TorchEstimator_params kv.1 kv.2) = true) ->
            forall kv, In kv (kw_update k v kw) ->
              is_ok (param_value TorchEstimator_params kv.1 kv.2) = true).
  { intros k v kw0 Hk Ha kv Hin. destruct (kw_update_cases _ _ _ _ Hin) as [H| ->]; [auto|].
    simpl. destruct Hk as [->| ->]; by rewrite (proj1 (param_value_loss v)) ||
                                        rewrite (proj2 (param_value_loss v)). }
  clear Hb. destruct (kw_in "loss" kw && negb _); destruct (kw_in "loss_constructor" _ && negb _);
    repeat (apply Hacc'; [tauto|]); done.
Qed.

(** ** Claim C3 *)

(** C3: in [TorchEstimator.__init__] called with declared keywords only,
    passing both [loss] and [loss_constructor] raises the [ValueError] the
    spec calls ConfigurationError; passing a single [loss] that is neither
    a list nor a tuple (and no [loss_constructor]), with every value
    accepted by its param's converter, stores [loss] as the one-element
    list [[loss]]. *)
Theorem TorchEstimator_init_loss (kwargs : list (string * pyval)) :
  (forall kv, In kv kwargs -> kv.1 ∈ TorchEstimator_arg_names) ->
  (kw_in "loss" kwargs = true -> kw_in "loss_constructor" kwargs = true ->
   TorchEstimator_init kwargs =
     Err (ValueError "only one of loss_constructor and loss parameters can be specified.")) /\
  ((forall kv, In kv kwargs -> is_ok (param_value TorchEstimator_params kv.1 kv.2) = true) ->
   kw_in "loss" kwargs = true -> kw_in "loss_constructor" kwargs = false ->
   is_list_or_tuple (kw_get "loss" PNone kwargs) = false ->
   exists p, TorchEstimator_init kwargs = Ok p /\
             getLoss p = Ok (PList [kw_get "loss" PNone kwargs])).
Proof.
  intros Hn. split.
  - intros H1 H2. unfold TorchEstimator_init.
    by rewrite (unexpected_keyword_none _ _ Hn), H1, H2.
  - intros Hacc H1 H2 H3.
    destruct (TorchEstimator_init_total kwargs Hn) as [p Hp]; [by rewrite H1, H2|done|].
    exists p. split; [done|].
    destruct (TorchEstimator_init_shape _ _ Hp) as (_ & _ & _).
    revert Hp. unfold TorchEstimator_init.
    rewrite (unexpected_keyword_none _ _ Hn), H1, H2, H3. cbn [andb negb].
    rewrite (kw_update_notin "loss" "loss_constructor") by done. cbn [andb].
    intros Hp. unfold getLoss.
    apply (_set_lookup_in _ _ _ _ _ (PList [kw_get "loss" PNone kwargs]) _ Hp).
    + by rewrite kw_update_in.
    + apply kw_update_values.
    + apply param_value_loss.
Qed.

Lemma TorchEstimator_init_loss_witness :
  TorchEstimator_init [("loss", PObj 1); ("loss_constructor", PObj 2)] =
    Err (ValueError "only one of loss_constructor and loss parameters can be specified.") /\
  (exists p, TorchEstimator_init [("num_proc", PInt 2); ("loss", PObj 7)] = Ok p /\
             getLoss p = Ok (PList [PObj 7])).
Proof.
  split.
  - apply (proj1 (TorchEstimator_init_loss [("loss", PObj 1); ("loss_constructor", PObj 2)]
                    ltac:(apply names_ok; reflexivity)));
      reflexivity.
  - apply (proj2 (TorchEstimator_init_loss [("num_proc", PInt 2); ("loss", PObj 7)]
                    ltac:(apply names_ok; reflexivity)));
      [apply forallb_forall; reflexivity|reflexivity..].
Defined.

(** ** Claim C8 *)

Lemma _deserialize_dict_spec (C : Collab) (d d' : list (string * pyval)) :
  _deserialize_dict C d = Ok d' ->
  Forall2 (fun kv kv' => kv'.1 = kv.1 /\
                         (kv.2 = PNone -> kv'.2 = PNone) /\
                         (kv.2 <> PNone -> codec_loads_base64 C kv.2 = Ok kv'.2)) d d'.
Proof.
  unfold _deserialize_dict. revert d'.
  induction d as [|[k v] d IH]; intros d' H; simpl in H.
  - injection H as <-. constructor.
  - destruct v; simpl in H;
      try (destruct (codec_loads_base64 C _) as [w|e] eqn:Hl; [|discriminate]);
      destruct (map_result _ d) as [ys|e] eqn:Hys; try discriminate;
      injection H as <-; constructor; auto; simpl; repeat split; congruence.
Qed.

Lemma _deserialize_dict_total (C : Collab) (d : list (string * pyval)) :
  (forall kv, In kv d -> kv.2 <> PNone -> exists w, codec_loads_base64 C kv.2 = Ok w) ->
  exists d', _deserialize_dict C d = Ok d'.
Proof.
  unfold _deserialize_dict. induction d as [|[k v] d IH]; intros Hall; simpl.
  - eauto.
  - destruct IH as [d' Hd']. { intros kv Hkv. apply Hall. by right. }
    rewrite Hd'.
    destruct (is_none v) eqn:Hv; [eauto|].
    destruct (Hall (k, v)) as [w Hw]; [by left| |].
    + simpl. intros ->. discriminate.
    + simpl in Hw. destruct v; try discriminate; simpl; rewrite Hw; eauto.
Qed.

(** C8: the writer's serializer gives [None] for [backend] and [store]
    whatever their value, [None] for [None], and the base64 encoding of
    any other value; the reader keeps every key, maps [None] to [None],
    decodes every other entry with [codec.loads_base64], and succeeds
    whenever each of these decodings does. *)
Theorem torch_param_serialization (C : Collab) :
  (forall v, _torch_param_serialize C "backend" v = PNone /\
             _torch_param_serialize C "store" v = PNone) /\
  (forall name, _torch_param_serialize C name PNone = PNone) /\
  (forall name v, name <> "backend" -> name <> "store" -> v <> PNone ->
                  _torch_param_serialize C name v = codec_dumps_base64 C v) /\
  (forall d d', _deserialize_dict C d = Ok d' ->
     Forall2 (fun kv kv' => kv'.1 = kv.1 /\
                            (kv.2 = PNone -> kv'.2 = PNone) /\
                            (kv.2 <> PNone -> codec_loads_base64 C kv.2 = Ok kv'.2)) d d') /\
  (forall d, (forall kv, In kv d -> kv.2 <> PNone ->
                         exists w, codec_loads_base64 C kv.2 = Ok w) ->
             exists d', _deserialize_dict C d = Ok d').
Proof.
  split; [|split; [|split; [|split]]].
  - intros v. by split.
  - intros name. unfold _torch_param_serialize.
    by destruct (existsb _ _).
  - intros name v H1 H2 H3. unfold _torch_param_serialize. simpl.
    destruct (String.eqb name "backend") eqn:E1; [apply String.eqb_eq in E1; done|].
    destruct (String.eqb name "store") eqn:E2; [apply String.eqb_eq in E2; done|].
    simpl. by destruct v.
  - apply _deserialize_dict_spec.
  - apply _deserialize_dict_total.
Qed.
Lemma torch_param_serialization_witness :
  _torch_param_serialize demo_collab "backend" (PObj 100) = PNone /\
  _torch_param_serialize demo_collab "epochs" (PInt 3) = PInt 3 /\
  exists d', _deserialize_dict demo_collab [("epochs", PInt 3); ("run_id", PNone)] = Ok d'.
Proof.
  destruct (torch_param_serialization demo_collab) as (H1 & _ & H3 & _ & H5).
  split; [apply (H1 (PObj 100))|]. split.
  - apply (H3 "epochs" (PInt 3)); discriminate.
  - apply H5. intros kv Hin Hn. exists (PInt 3).
    destruct Hin as [<-|[<-|[]]]; [reflexivity|]. simpl in Hn. congruence.
Defined.


(** ** Claim C9 *)

Lemma map_result_suffix (cols : list string) :
  map_result add_output_suffix (map PStr cols) =
    Ok (map (fun c => PStr (c +:+ "__output")) cols).
Proof. induction cols as [|c cols IH]; [done|]. simpl. by rewrite IH. Qed.

Lemma kw_in_false_of_names k kwargs :
  (forall kv, In kv kwargs -> kv.1 ∈ TorchModel_arg_names) ->
  k ∉ TorchModel_arg_names -> kw_in k kwargs = false.
Proof.
  induction kwargs as [|[k' v'] kw IH]; intros Hall Hk; [done|]. simpl.
  apply orb_false_iff. split.
  - destruct (String.eqb k' k) eqn:E; [|done]. apply String.eqb_eq in E. subst.
    exfalso. apply Hk. by apply (Hall (k, v')); left.
  - apply IH; [|done]. intros kv Hkv. apply Hall. by right.
Qed.

(** The values [TorchModel.__init__] passes to [setParams] are kept as
    they are when [run_id] is [None] or a string. *)
Lemma TorchModel_accepts kw :
  (forall kv, In kv kw -> kv.1 ∈ TorchModel_arg_names) ->
  (forall v, In ("run_id", v) kw -> v = PNone \/ exists s, v = PStr s) ->
  forall kv, In kv kw -> param_value TorchModel_params kv.1 kv.2 = Ok kv.2.
Proof.
  intros Hn Hr [k v] Hin. pose proof (Hn _ Hin) as Hk. simpl in Hk |- *.
  unfold TorchModel_arg_names in Hk. rewrite !elem_of_cons in Hk.
  repeat (destruct Hk as [->|Hk];
          [ first [ destruct (Hr v Hin) as [->|[s ->]]; reflexivity
                  | unfold param_value; simpl; by destruct (is_none v) ] |]).
  by apply not_elem_of_nil in Hk.
Qed.

(** Every converter of a [TorchModel] param but that of [outputCols] keeps
    the value it accepts. *)
Lemma TorchModel_param_value_same k v v' :
  k <> "outputCols" -> param_value TorchModel_params k v = Ok v' -> v' = v.
Proof.
  intros Hk. unfold param_value.
  destruct (List.find _ TorchModel_params) as [[k' c]|] eqn:Hf; [|discriminate].
  apply find_some in Hf as [Hin Heq]. apply String.eqb_eq in Heq. simpl in Heq. subst k'.
  destruct (is_none v); [congruence|]. simpl in Hin.
  repeat (destruct Hin as [Hin|Hin];
          [injection Hin as <- <-;
           first [done | simpl; intros H; congruence | destruct v; simpl; intros H; congruence]|]).
  done.
Qed.

(** [setOutputCols] with a list of strings. *)
Lemma _set_outputCols self l :
  forallb _can_convert_to_string l = true ->
  _set TorchModel_params self [("outputCols", PList l)] = Ok (py_set self [("outputCols", PList l)]).
Proof. intros H. unfold _set, param_value. simpl. rewrite H. reflexivity. Qed.

Lemma TorchModel_setParams kw self :
  (forall kv, In kv kw -> kv.1 ∈ TorchModel_arg_names) ->
  (forall v, In ("run_id", v) kw -> v = PNone \/ exists s, v = PStr s) ->
  exists m, _set TorchModel_params self kw = Ok m /\
            getOrDefault m "outputCols" = getOrDefault self "outputCols".
Proof.
  intros Hn Hr. destruct (_set_total TorchModel_params self kw) as [m Hm].
  { intros kv Hin. by rewrite (TorchModel_accepts kw Hn Hr kv Hin). }
  exists m. split; [done|]. apply (_set_lookup_notin _ _ _ _ _ Hm).
  apply kw_in_false_of_names; [done|]. unfold TorchModel_arg_names.
  rewrite !elem_of_cons. intros ?. repeat (destruct_or?; try discriminate).
  by apply not_elem_of_nil in H.
Qed.

Lemma forallb_can_convert_map {A} (f : A -> string) (l : list A) :
  forallb _can_convert_to_string (map (fun x => PStr (f x)) l) = true.
Proof. by induction l. Qed.

(** C9: constructing a [TorchModel] (with declared keywords, and a
    [run_id] that is [None] or a string) with a non-empty list of label
    column names sets [outputCols] to those names, in order, each followed
    by ["__output"]. *)
Theorem TorchModel_init_output_cols (kwargs : list (string * pyval)) (cols : list string) :
  (forall kv, In kv kwargs -> kv.1 ∈ TorchModel_arg_names) ->
  (forall v, In ("run_id", v) kwargs -> v = PNone \/ exists s, v = PStr s) ->
  kw_get "label_columns" PNone kwargs = PList (map PStr cols) ->
  cols <> [] ->
  exists p, TorchModel_init kwargs = Ok p /\
            getOutputCols p = Ok (PList (map (fun c => PStr (c +:+ "__output")) cols)).
Proof.
  intros Hnames Hrun Hlab Hne. unfold TorchModel_init.
  rewrite (unexpected_keyword_none _ _ Hnames), Hlab.
  assert (truthy (PList (map PStr cols)) = true) as Ht by (destruct cols; done).
  rewrite Ht. cbn [py_iter]. rewrite map_result_suffix, _set_outputCols by apply forallb_can_convert_map.
  edestruct (TorchModel_setParams kwargs) as (m & Hm & Ho); [exact Hnames|exact Hrun|].
  rewrite Hm. exists m. split; [done|].
  unfold getOutputCols. rewrite Ho. unfold getOrDefault. simpl. by rewrite lookup_insert_eq.
Qed.

Lemma TorchModel_init_output_cols_witness :
  exists p, TorchModel_init [("label_columns", PList [PStr "y"; PStr "z"])] = Ok p /\
            getOutputCols p = Ok (PList [PStr "y__output"; PStr "z__output"]).
Proof.
  apply (TorchModel_init_output_cols [("label_columns", PList [PStr "y"; PStr "z"])] ["y"; "z"]).
  - apply names_ok. reflexivity.
  - intros v [H|[]]. discriminate.
  - reflexivity.
  - discriminate.
Defined.

(** ** Claim C6 *)

Lemma py_round_nearest (q : Q) : (Qabs (inject_Z (py_round q) - q) <= 1 # 2)%Q.
Proof.
  pose proof (Qfloor_le q) as H1. pose proof (Qlt_floor q) as H2.
  rewrite inject_Z_plus in H2. change (inject_Z 1) with 1%Q in H2.
  unfold py_round.
  destruct (Qcompare (q - inject_Z (Qfloor q)) (1 # 2)) eqn:E.
  - apply Qeq_alt in E.
    assert (Hf : forall z, z = Qfloor q \/ z = (Qfloor q + 1)%Z ->
                  (Qabs (inject_Z z - q) <= 1 # 2)%Q).
    { intros z [-> | ->]; apply Qabs_Qle_condition;
        rewrite ?inject_Z_plus; change (inject_Z 1) with 1%Q; split; lra. }
    destruct (Z.even _); apply Hf; auto.
  - apply Qlt_alt in E. apply Qabs_Qle_condition. split; lra.
  - apply Qgt_alt in E. apply Qabs_Qle_condition.
    rewrite inject_Z_plus. change (inject_Z 1) with 1%Q. split; lra.
Qed.

(** C6: for a label column of an integral scalar spark type, a one-element
    prediction [v] is decoded as the Python [int] of [round(v)], the
    nearest integer (ties to even), within 1/2 of [v]; 2.7 decodes to 3.
    The integral spark types and their Python type follow the spec. *)
Theorem decode_integral_rounds (meta : ColMeta) (v : Q) :
  (spark_data_type meta = IntegerType \/ spark_data_type meta = LongType) ->
  decode_prediction meta [v] = Ok (FScalar (PInt (py_round v))) /\
  (Qabs (inject_Z (py_round v) - v) <= 1 # 2)%Q /\
  decode_prediction meta [27 # 10] = Ok (FScalar (PInt 3)).
Proof.
  intros Ht. unfold decode_prediction.
  split; [|split]; [| apply py_round_nearest |];
    destruct Ht as [-> | ->]; reflexivity.
Qed.

Lemma decode_integral_rounds_witness :
  decode_prediction {| spark_data_type := LongType; shape := 1 |} [27 # 10] =
    Ok (FScalar (PInt (py_round (27 # 10)))) /\
  (Qabs (inject_Z (py_round (27 # 10)) - (27 # 10)) <= 1 # 2)%Q /\
  decode_prediction {| spark_data_type := LongType; shape := 1 |} [27 # 10] =
    Ok (FScalar (PInt 3)).
Proof. apply decode_integral_rounds. simpl. by right. Defined.

(** ** Claim C7 *)

(** C7: for a sparse-vector label column, [nonzero()[0]] of the torch
    tensor is its first row, i.e. the index of the FIRST nonzero element
    only: the prediction [[0,0,3.1,0,0]] of shape 5 gives indices [[2]]
    and values [[3.1]], but [[1,0,2]] of shape 3 gives indices [[0]] and
    values [[1]] (not [[0,2]] and [[1,2]]), and an all-zero prediction
    raises [IndexError]. *)
Theorem decode_sparse_first_nonzero_only :
  decode_prediction {| spark_data_type := SparseVector; shape := 5 |} [0; 0; 31 # 10; 0; 0]%Q =
    Ok (FSparseVector 5 [2] [31 # 10]) /\
  decode_prediction {| spark_data_type := SparseVector; shape := 3 |} [1; 0; 2]%Q =
    Ok (FSparseVector 3 [0] [1%Q]) /\
  decode_prediction {| spark_data_type := SparseVector; shape := 2 |} [0; 0]%Q =
    Err (IndexError "index 0 is out of bounds for dimension 0 with size 0").
Proof. split; [|split]; vm_compute; reflexivity. Qed.

(** ** The trace only grows *)

Lemma ret_extends {A} (a : A) : extends (ret a).
Proof. intros tr. exists []. by rewrite app_nil_r. Qed.

Lemma raise_extends {A} e : extends (@raise A e).
Proof. intros tr. exists []. by rewrite app_nil_r. Qed.

Lemma lift_extends {A} (r : result A) : extends (lift r).
Proof. intros tr. exists []. by rewrite app_nil_r. Qed.

Lemma call_extends {A} ev (r : result A) : extends (call ev r).
Proof. intros tr. by exists [ev]. Qed.

Lemma bind_extends {A B} (m : M A) (k : A -> M B) :
  extends m -> (forall a, extends (k a)) -> extends (bind m k).
Proof.
  intros Hm Hk tr. unfold bind. destruct (Hm tr) as [r1 H1].
  destruct (m tr) as [tr' [a|e]]; simpl in *; subst.
  - destruct (Hk a (tr ++ r1)) as [r2 H2]. exists (r1 ++ r2). by rewrite H2, app_assoc.
  - by exists r1.
Qed.

Ltac extends_tac :=
  repeat first
    [ apply bind_extends
    | apply ret_extends | apply raise_extends | apply lift_extends | apply call_extends
    | progress intros
    | match goal with
      | |- extends (match ?x with _ => _ end) => destruct x
      | |- extends (if ?b then _ else _) => destruct b
      end ].

Lemma get_extends p k : extends (get p k).
Proof. apply lift_extends. Qed.

Lemma _create_model_extends C self rrs run_id md : extends (_create_model C self rrs run_id md).
Proof. unfold _create_model, _get_model_kwargs, get. extends_tac. Qed.

Lemma resolve_last_checkpoint_state_extends C self run_id :
  extends (resolve_last_checkpoint_state C self run_id).
Proof.
  unfold resolve_last_checkpoint_state, _has_checkpoint, _load_checkpoint, get.
  extends_tac.
Qed.

Lemma _fit_on_prepared_data_extends C self b tr vr md ars :
  extends (_fit_on_prepared_data C self b tr vr md ars).
Proof.
  unfold _fit_on_prepared_data, _check_model_compatibility, get.
  extends_tac; auto using resolve_last_checkpoint_state_extends, _create_model_extends.
Qed.

(** ** Reading the parameters of a constructed estimator *)

Lemma bind_get {B} p k v (f : pyval -> M B) tr :
  getOrDefault p k = Ok v -> bind (get p k) f tr = f v tr.
Proof. intros H. unfold bind, get, lift. by rewrite H. Qed.

Lemma resolve_backend_trace C be np tr :
  resolve_backend C be np tr =
    (tr ++ fst (resolve_backend C be np []), snd (resolve_backend C be np [])).
Proof.
  unfold resolve_backend, bind, call, ret, raise.
  destruct (Bool.eqb _ _); [by rewrite app_nil_r|].
  destruct (is_none be); [by destruct (SparkBackend C np)|].
  destruct (is_none np); [by destruct (backend_num_processes C be)|].
  by rewrite app_nil_r.
Qed.

(** [_fit] up to the data preparation, for a constructed estimator. *)
Lemma _fit_unfold_get C kw est df np be tr :
  TorchEstimator_init kw = Ok est ->
  getOrDefault est "num_proc" = Ok np -> getOrDefault est "backend" = Ok be ->
  exists store lc fc vc vs sw ppp,
    getOrDefault est "store" = Ok store /\ getOrDefault est "label_cols" = Ok lc /\
    getOrDefault est "feature_cols" = Ok fc /\ getOrDefault est "validation_col" = Ok vc /\
    getOrDefault est "validation_split" = Ok vs /\
    getOrDefault est "sample_weight_col" = Ok sw /\
    getOrDefault est "partitions_per_process" = Ok ppp /\
    _fit C est df tr =
      bind (resolve_backend C be np) (fun '(backend, num_processes) =>
        '(train_rows, val_rows, metadata, avg_row_size) <-
           call (EvPrepareData num_processes)
                (prepare_data C num_processes store df lc fc vc vs sw ppp) ;;
        _fit_on_prepared_data C est backend train_rows val_rows metadata avg_row_size) tr.
Proof.
  intros Hi Hnp Hbe.
  assert (G : forall k, k ∈ (EstimatorParams_defaults.*1) -> exists v, getOrDefault est k = Ok v)
    by (intros k; by apply TorchEstimator_init_get with kw).
  destruct (G "validation_split") as [vs Hvs]; [set_solver|].
  destruct (G "validation_col") as [vc Hvc]; [set_solver|].
  destruct (G "store") as [store Hst]; [set_solver|].
  destruct (G "label_cols") as [lc Hlc]; [set_solver|].
  destruct (G "feature_cols") as [fc Hfc]; [set_solver|].
  destruct (G "sample_weight_col") as [sw Hsw]; [set_solver|].
  destruct (G "partitions_per_process") as [ppp Hppp]; [set_solver|].
  exists store, lc, fc, vc, vs, sw, ppp. do 7 (split; [done|]).
  unfold _fit.
  rewrite (bind_get _ _ _ _ _ Hvs), (bind_get _ _ _ _ _ Hvc), (bind_get _ _ _ _ _ Hbe),
    (bind_get _ _ _ _ _ Hst), (bind_get _ _ _ _ _ Hlc), (bind_get _ _ _ _ _ Hfc),
    (bind_get _ _ _ _ _ Hsw), (bind_get _ _ _ _ _ Hppp), (bind_get _ _ _ _ _ Hnp).
  reflexivity.
Qed.

Lemma _fit_unfold C kw est df np be tr :
  TorchEstimator_init kw = Ok est ->
  getOrDefault est "num_proc" = Ok np -> getOrDefault est "backend" = Ok be ->
  exists store lc fc vc vs sw ppp,
    _fit C est df tr =
      bind (resolve_backend C be np) (fun '(backend, num_processes) =>
        '(train_rows, val_rows, metadata, avg_row_size) <-
           call (EvPrepareData num_processes)
                (prepare_data C num_processes store df lc fc vc vs sw ppp) ;;
        _fit_on_prepared_data C est backend train_rows val_rows metadata avg_row_size) tr.
Proof.
  intros Hi Hnp Hbe.
  destruct (_fit_unfold_get C kw est df np be tr Hi Hnp Hbe)
    as (st&lc&fc&vc&vs&sw&ppp&_&_&_&_&_&_&_&H).
  exists st, lc, fc, vc, vs, sw, ppp. exact H.
Qed.

(** ** Claim C2 *)

(** C2: [fit] requires exactly one of [num_proc] and [backend]: when both
    or neither are set it raises the [ValueError] the spec calls
    ConfigurationError before any collaborator call; when only [num_proc]
    is set it builds [SparkBackend(num_proc)] and goes on with that backend
    and [num_proc]; when only [backend] is set it reads
    [backend.num_processes()] and goes on with that backend and count. *)
Theorem fit_num_proc_xor_backend (C : Collab) kw est df np be :
  TorchEstimator_init kw = Ok est ->
  getOrDefault est "num_proc" = Ok np -> getOrDefault est "backend" = Ok be ->
  (is_none np = is_none be ->
     forall tr, _fit C est df tr = (tr, Err (ValueError num_proc_backend_msg))) /\
  (is_none be = true -> is_none np = false -> forall b tr, SparkBackend C np = Ok b ->
     exists store lc fc vc vs sw ppp,
       _fit C est df tr =
         ('(train_rows, val_rows, metadata, avg_row_size) <-
            call (EvPrepareData np) (prepare_data C np store df lc fc vc vs sw ppp) ;;
          _fit_on_prepared_data C est b train_rows val_rows metadata avg_row_size)
         (tr ++ [EvSparkBackend np])) /\
  (is_none np = true -> is_none be = false -> forall n tr, backend_num_processes C be = Ok n ->
     exists store lc fc vc vs sw ppp,
       _fit C est df tr =
         ('(train_rows, val_rows, metadata, avg_row_size) <-
            call (EvPrepareData n) (prepare_data C n store df lc fc vc vs sw ppp) ;;
          _fit_on_prepared_data C est be train_rows val_rows metadata avg_row_size)
         (tr ++ [EvNumProcesses be])).
Proof.
  intros Hi Hnp Hbe. split; [|split].
  - intros Hx tr.
    destruct (_fit_unfold C kw est df np be tr Hi Hnp Hbe) as (?&?&?&?&?&?&?&->).
    unfold bind at 1, resolve_backend. rewrite Hx, Bool.eqb_reflx. reflexivity.
  - intros Hb Hn b tr Hsb.
    destruct (_fit_unfold C kw est df np be tr Hi Hnp Hbe) as (st&lc&fc&vc&vs&sw&ppp&->).
    exists st, lc, fc, vc, vs, sw, ppp.
    unfold bind at 1, resolve_backend. rewrite Hb, Hn. simpl.
    unfold bind at 1, call at 1. rewrite Hsb. reflexivity.
  - intros Hn Hb n tr Hnb.
    destruct (_fit_unfold C kw est df np be tr Hi Hnp Hbe) as (st&lc&fc&vc&vs&sw&ppp&->).
    exists st, lc, fc, vc, vs, sw, ppp.
    unfold bind at 1, resolve_backend. rewrite Hb, Hn. simpl.
    unfold bind at 1, call at 1. rewrite Hnb. reflexivity.
Qed.

Lemma fit_num_proc_xor_backend_witness :
  (exists est, TorchEstimator_init [] = Ok est /\
     _fit demo_collab est PNone [] = ([], Err (ValueError num_proc_backend_msg))) /\
  (exists est, TorchEstimator_init [("num_proc", PInt 2)] = Ok est /\
     exists store lc fc vc vs sw ppp,
       _fit demo_collab est PNone [] =
         ('(train_rows, val_rows, metadata, avg_row_size) <-
            call (EvPrepareData (PInt 2))
                 (prepare_data demo_collab (PInt 2) store PNone lc fc vc vs sw ppp) ;;
          _fit_on_prepared_data demo_collab est (PObj 100) train_rows val_rows metadata avg_row_size)
         ([] ++ [EvSparkBackend (PInt 2)])) /\
  (exists est, TorchEstimator_init [("backend", PObj 100)] = Ok est /\
     exists store lc fc vc vs sw ppp,
       _fit demo_collab est PNone [] =
         ('(train_rows, val_rows, metadata, avg_row_size) <-
            call (EvPrepareData (PInt 4))
                 (prepare_data demo_collab (PInt 4) store PNone lc fc vc vs sw ppp) ;;
          _fit_on_prepared_data demo_collab est (PObj 100) train_rows val_rows metadata avg_row_size)
         ([] ++ [EvNumProcesses (PObj 100)])).
Proof.
  split; [|split].
  - set (est := py_set TorchEstimator_defaults []).
    assert (Hi : TorchEstimator_init [] = Ok est) by (vm_compute; reflexivity).
    assert (Hn : getOrDefault est "num_proc" = Ok PNone) by (vm_compute; reflexivity).
    assert (Hb : getOrDefault est "backend" = Ok PNone) by (vm_compute; reflexivity).
    destruct (fit_num_proc_xor_backend demo_collab [] est PNone PNone PNone Hi Hn Hb)
      as [Ha _].
    exists est. split; [exact Hi|]. apply Ha; reflexivity.
  - set (est := py_set TorchEstimator_defaults [("num_proc", PInt 2)]).
    assert (Hi : TorchEstimator_init [("num_proc", PInt 2)] = Ok est)
      by (vm_compute; reflexivity).
    assert (Hn : getOrDefault est "num_proc" = Ok (PInt 2)) by (vm_compute; reflexivity).
    assert (Hb : getOrDefault est "backend" = Ok PNone) by (vm_compute; reflexivity).
    destruct (fit_num_proc_xor_backend demo_collab _ est PNone _ _ Hi Hn Hb) as [_ [Hs _]].
    exists est. split; [exact Hi|]. apply Hs; reflexivity.
  - set (est := py_set TorchEstimator_defaults [("backend", PObj 100)]).
    assert (Hi : TorchEstimator_init [("backend", PObj 100)] = Ok est)
      by (vm_compute; reflexivity).
    assert (Hn : getOrDefault est "num_proc" = Ok PNone) by (vm_compute; reflexivity).
    assert (Hb : getOrDefault est "backend" = Ok (PObj 100)) by (vm_compute; reflexivity).
    destruct (fit_num_proc_xor_backend demo_collab _ est PNone _ _ Hi Hn Hb) as [_ [_ Hs]].
    exists est. split; [exact Hi|]. apply Hs; reflexivity.
Defined.

(** ** Claim C1 *)

(** C1 (as the code has it): for a constructed estimator without a model
    (its [model] is falsy: [None], or an empty container module), [fit]
    reports a [num_proc]/[backend] violation first, with no collaborator
    call; with a valid choice it resolves the backend and calls the data
    preparation; if that raises, its error propagates; otherwise
    [_fit_on_prepared_data] raises [ValueError('Model parameter is
    required')] (the spec's ConfigurationError), before the shape check,
    the checkpoint lookup and the dispatch. *)
Theorem fit_missing_model_after_prepare (C : Collab) kw est df np be m tr :
  TorchEstimator_init kw = Ok est ->
  getOrDefault est "num_proc" = Ok np -> getOrDefault est "backend" = Ok be ->
  getOrDefault est "model" = Ok m -> truthy m = false ->
  (is_none np = is_none be -> _fit C est df tr = (tr, Err (ValueError num_proc_backend_msg))) /\
  (forall ev b n, resolve_backend C be np [] = ([ev], Ok (b, n)) ->
     exists store lc fc vc vs sw ppp,
       getOrDefault est "store" = Ok store /\ getOrDefault est "label_cols" = Ok lc /\
       getOrDefault est "feature_cols" = Ok fc /\ getOrDefault est "validation_col" = Ok vc /\
       getOrDefault est "validation_split" = Ok vs /\
       getOrDefault est "sample_weight_col" = Ok sw /\
       getOrDefault est "partitions_per_process" = Ok ppp /\
       (forall r, prepare_data C n store df lc fc vc vs sw ppp = Ok r ->
          _fit C est df tr =
            (tr ++ [ev; EvPrepareData n], Err (ValueError "Model parameter is required"))) /\
       (forall e, prepare_data C n store df lc fc vc vs sw ppp = Err e ->
          _fit C est df tr = (tr ++ [ev; EvPrepareData n], Err e))).
Proof.
  intros Hi Hnp Hbe Hm Hf. split.
  - intros Hx.
    destruct (_fit_unfold C kw est df np be tr Hi Hnp Hbe) as (?&?&?&?&?&?&?&->).
    unfold bind at 1, resolve_backend. rewrite Hx, Bool.eqb_reflx. reflexivity.
  - intros ev b n Hres.
    destruct (_fit_unfold_get C kw est df np be tr Hi Hnp Hbe)
      as (st&lc&fc&vc&vs&sw&ppp&H1&H2&H3&H4&H5&H6&H7&->).
    exists st, lc, fc, vc, vs, sw, ppp. do 7 (split; [done|]). split.
    + intros [[[tr_rows v_rows] md] ars] Hr.
      unfold bind at 1. rewrite resolve_backend_trace, Hres. simpl.
      unfold bind at 1, call at 1. rewrite Hr.
      unfold _fit_on_prepared_data. rewrite (bind_get _ _ _ _ _ Hm), Hf. simpl.
      by rewrite <- app_assoc.
    + intros e Hr.
      unfold bind at 1. rewrite resolve_backend_trace, Hres. simpl.
      unfold bind at 1, call at 1. rewrite Hr. by rewrite <- app_assoc.
Qed.

Lemma fit_missing_model_after_prepare_witness :
  exists est, TorchEstimator_init [("num_proc", PInt 2)] = Ok est /\
    _fit demo_collab est PNone [] =
      ([] ++ [EvSparkBackend (PInt 2); EvPrepareData (PInt 2)],
       Err (ValueError "Model parameter is required")).
Proof.
  set (est := py_set TorchEstimator_defaults [("num_proc", PInt 2)]).
  assert (Hi : TorchEstimator_init [("num_proc", PInt 2)] = Ok est)
    by (vm_compute; reflexivity).
  assert (Hn : getOrDefault est "num_proc" = Ok (PInt 2)) by (vm_compute; reflexivity).
  assert (Hb : getOrDefault est "backend" = Ok PNone) by (vm_compute; reflexivity).
  assert (Hm : getOrDefault est "model" = Ok PNone) by (vm_compute; reflexivity).
  exists est. split; [exact Hi|].
  destruct (fit_missing_model_after_prepare demo_collab _ est PNone _ _ _ [] Hi Hn Hb Hm
              eq_refl) as [_ H2].
  destruct (H2 (EvSparkBackend (PInt 2)) (PObj 100) (PInt 2) eq_refl)
    as (st&lc&fc&vc&vs&sw&ppp&_&_&_&_&_&_&_&Hok&_).
  exact (Hok _ eq_refl).
Defined.

(** C1 as stated fails: for [TorchEstimator(num_proc=2)] without a model,
    the data preparation is called before the error is raised, and the
    message is ['Model parameter is required']. *)
Lemma fit_missing_model_calls_prepare :
  exists est, TorchEstimator_init [("num_proc", PInt 2)] = Ok est /\
    In (EvPrepareData (PInt 2)) (fst (_fit demo_collab est PNone [])) /\
    snd (_fit demo_collab est PNone []) = Err (ValueError "Model parameter is required").
Proof.
  exists (py_set TorchEstimator_defaults [("num_proc", PInt 2)]).
  split; [vm_compute; reflexivity|].
  vm_compute. split; [by right; left | reflexivity].
Qed.

(** ** Claim C5 *)

(** C5: checkpoint resolution in [_fit_on_prepared_data].  A [None] path
    and a path the store says does not exist both give
    [last_checkpoint_state = None] with no error and no read; only a
    non-[None] existing path is read (after asking the store for the path
    again and, if verbose, printing a notice) and decoded with
    [torch.load]. *)
Theorem checkpoint_resolution (C : Collab) est run_id store path verbose tr :
  getOrDefault est "store" = Ok store -> getOrDefault est "verbose" = Ok verbose ->
  store_get_checkpoint_path C store run_id = Ok path ->
  (is_none path = true ->
     resolve_last_checkpoint_state C est run_id tr =
       (tr ++ [EvGetCheckpointPath run_id], Ok PNone)) /\
  (is_none path = false -> store_exists C store path = Ok false ->
     resolve_last_checkpoint_state C est run_id tr =
       (tr ++ [EvGetCheckpointPath run_id; EvExists path], Ok PNone)) /\
  (is_none path = false -> store_exists C store path = Ok true ->
     resolve_last_checkpoint_state C est run_id tr =
       (tr ++ [EvGetCheckpointPath run_id; EvExists path; EvGetCheckpointPath run_id]
           ++ (if truthy verbose then [EvResumeNotice path] else [])
           ++ [EvRead path]
           ++ (match store_read C store path with Ok _ => [EvTorchLoad] | Err _ => [] end),
        rbind (store_read C store path) (torch_load C))).
Proof.
  intros Hs Hv Hp.
  unfold resolve_last_checkpoint_state, _has_checkpoint, _load_checkpoint, get,
    bind, lift, call, ret.
  rewrite Hs, Hp. split; [|split].
  - intros ->. reflexivity.
  - intros -> ->. by rewrite <- app_assoc.
  - intros Hn He. rewrite Hn, He, Hv.
    destruct (truthy verbose); destruct (store_read C store path) as [b|e];
      simpl; rewrite <- ?app_assoc; reflexivity.
Qed.

Lemma checkpoint_resolution_witness :
  resolve_last_checkpoint_state demo_collab TorchEstimator_defaults (PStr "R1") [] =
    ([] ++ [EvGetCheckpointPath (PStr "R1"); EvExists (PStr "/ckpt/R1");
            EvGetCheckpointPath (PStr "R1")]
        ++ [EvResumeNotice (PStr "/ckpt/R1")] ++ [EvRead (PStr "/ckpt/R1")] ++ [EvTorchLoad],
     Ok (PObj 301)) /\
  resolve_last_checkpoint_state demo_collab TorchEstimator_defaults (PStr "R2") [] =
    ([] ++ [EvGetCheckpointPath (PStr "R2")], Ok PNone).
Proof.
  assert (Hs : getOrDefault TorchEstimator_defaults "store" = Ok PNone)
    by (vm_compute; reflexivity).
  assert (Hv : getOrDefault TorchEstimator_defaults "verbose" = Ok (PInt 1))
    by (vm_compute; reflexivity).
  split.
  - destruct (checkpoint_resolution demo_collab TorchEstimator_defaults (PStr "R1") PNone
                (PStr "/ckpt/R1") (PInt 1) [] Hs Hv eq_refl) as [_ [_ H3]].
    apply H3; reflexivity.
  - destruct (checkpoint_resolution demo_collab TorchEstimator_defaults (PStr "R2") PNone
                PNone (PInt 1) [] Hs Hv eq_refl) as [H1 _].
    apply H1; reflexivity.
Defined.

(** ** Claim C4 *)

Lemma TorchModel_init_get kw m k v :
  TorchModel_init kw = Ok m -> k <> "outputCols" -> kw_in k kw = true ->
  (forall kv, In kv kw -> kv.1 = k -> kv.2 = v) -> getOrDefault m k = Ok v.
Proof.
  intros Hm Hk Hin Hv. unfold TorchModel_init in Hm.
  destruct (unexpected_keyword _ _); [discriminate|].
  destruct (if truthy _ then _ else _) as [self|e]; [|discriminate].
  destruct (_set_passed _ _ _ _ _ _ Hm Hin Hv) as (v' & Hp & ->).
  f_equal. by apply (TorchModel_param_value_same k v v').
Qed.

(** C4: the trained model is built from the first [RunResult] only: the
    other results do not matter; its [history] is that result's history,
    its [model] the decoding of its serialized model, and its [optimizer]
    the [torch.load] with [map_location=cpu] of the decoding of its
    serialized optimizer. *)
Theorem create_model_from_first_result (C : Collab) est rr rest run_id md tr :
  _create_model C est (rr :: rest) run_id md tr = _create_model C est [rr] run_id md tr /\
  (forall m, snd (_create_model C est (rr :: rest) run_id md tr) = Ok m ->
     getHistory m = Ok (rr_history rr) /\
     (exists model, codec_loads_base64 C (rr_serialized_model rr) = Ok model /\
                    getModel m = Ok model) /\
     (exists bio opt, codec_loads_base64 C (rr_serialized_optimizer rr) = Ok bio /\
                      torch_load_cpu C bio = Ok opt /\ _get_optimizer m = Ok opt)).
Proof.
  split; [reflexivity|]. intros m.
  unfold _create_model, _get_model_kwargs, get, bind, lift, call, ret. simpl.
  destruct (codec_loads_base64 C (rr_serialized_model rr)) as [model|e]; [|discriminate].
  destruct (codec_loads_base64 C (rr_serialized_optimizer rr)) as [bio|e]; [|discriminate].
  destruct (torch_load_cpu C bio) as [opt|e] eqn:Ht; [|discriminate].
  destruct (getOrDefault est "feature_cols") as [fc|e]; [|discriminate].
  destruct (getOrDefault est "input_shapes") as [ins|e]; [|discriminate].
  destruct (getOrDefault est "label_cols") as [lc|e]; [|discriminate].
  simpl. intros Hm.
  assert (G : forall k v, kw_in k
      [("history", rr_history rr); ("model", model); ("optimizer", opt);
       ("feature_columns", fc); ("input_shapes", ins); ("label_columns", lc);
       ("run_id", run_id); ("_metadata", md)] = true ->
      (forall kv, In kv
        [("history", rr_history rr); ("model", model); ("optimizer", opt);
         ("feature_columns", fc); ("input_shapes", ins); ("label_columns", lc);
         ("run_id", run_id); ("_metadata", md)] -> kv.1 = k -> kv.2 = v) ->
      getOrDefault m k = Ok v)
    by (intros k v Hin Hv; apply (TorchModel_init_get _ _ _ _ Hm); [|done|done];
        intros ->; discriminate Hin).
  split; [|split].
  - apply G; [reflexivity|].
    intros kv Hin Hk. simpl in Hin.
    repeat (destruct Hin as [<-|Hin]; [simpl in Hk; by try discriminate|]). done.
  - exists model. split; [done|]. apply G; [reflexivity|].
    intros kv Hin Hk. simpl in Hin.
    repeat (destruct Hin as [<-|Hin]; [simpl in Hk; by try discriminate|]). done.
  - exists bio, opt. split; [done|]. split; [exact Ht|]. apply G; [reflexivity|].
    intros kv Hin Hk. simpl in Hin.
    repeat (destruct Hin as [<-|Hin]; [simpl in Hk; by try discriminate|]). done.
Qed.

Lemma create_model_from_first_result_witness :
  exists m,
    snd (_create_model demo_collab (py_set TorchEstimator_defaults [("input_shapes", PList [])])
           demo_run_results (PStr "R1") (PObj 203) []) = Ok m /\
    getHistory m = Ok (PInt 0).
Proof.
  set (est := py_set TorchEstimator_defaults [("input_shapes", PList [])]).
  destruct (snd (_create_model demo_collab est demo_run_results (PStr "R1") (PObj 203) []))
    as [m|e] eqn:E; [|vm_compute in E; discriminate].
  exists m. split; [reflexivity|].
  destruct (create_model_from_first_result demo_collab est
              {| rr_history := PInt 0; rr_serialized_model := PObj 11;
                 rr_serialized_optimizer := PObj 12 |} (tl demo_run_results)
              (PStr "R1") (PObj 203) []) as [_ H].
  apply (H m E).
Defined.

(** ** Claim C10 *)

Lemma lookup_map_list {A B} (f : A -> B) (l : list A) i :
  map f l !! i = option_map f (l !! i).
Proof. revert i; induction l as [|x l IH]; intros [|i]; simpl; auto. Qed.

Lemma rename_keys_lookup (f : nat -> nat) (m : gmap nat nat) j v :
  (forall k1 k2, is_Some (m !! k1) -> is_Some (m !! k2) -> f k1 = f k2 -> k1 = k2) ->
  rename_keys f m !! j = Some v <-> exists k, j = f k /\ m !! k = Some v.
Proof.
  intros Hinj. unfold rename_keys. split.
  - intros H%elem_of_list_to_map_2. apply list_elem_of_In, in_map_iff in H.
    destruct H as [[k v'] [Heq Hin]]. simpl in Heq. inversion Heq; subst.
    exists k. split; [done|]. by apply elem_of_map_to_list, list_elem_of_In.
  - intros (k & -> & Hk). apply elem_of_list_to_map_1'.
    + intros y Hy. apply list_elem_of_In, in_map_iff in Hy.
      destruct Hy as [[k' y'] [Heq Hin]]. simpl in Heq. inversion Heq as [[Hf Hy]]; subst.
      apply list_elem_of_In, elem_of_map_to_list in Hin.
      assert (k' = k) as -> by (apply Hinj; eauto).
      congruence.
    + apply list_elem_of_In, in_map_iff. exists (k, v). split; [done|].
      by apply list_elem_of_In, elem_of_map_to_list.
Qed.

Lemma rename_keys_inverse (f g : nat -> nat) (m : gmap nat nat) :
  (forall k, is_Some (m !! k) -> g (f k) = k) ->
  rename_keys g (rename_keys f m) = m.
Proof.
  intros Hgf.
  assert (Hf : forall k1 k2, is_Some (m !! k1) -> is_Some (m !! k2) -> f k1 = f k2 -> k1 = k2).
  { intros k1 k2 H1 H2 E. rewrite <- (Hgf k1 H1), <- (Hgf k2 H2). by rewrite E. }
  assert (Hg : forall k1 k2, is_Some (rename_keys f m !! k1) -> is_Some (rename_keys f m !! k2) ->
                 g k1 = g k2 -> k1 = k2).
  { intros k1 k2 [v1 H1] [v2 H2] E.
    apply (rename_keys_lookup _ _ _ _ Hf) in H1 as (a1 & -> & Ha1).
    apply (rename_keys_lookup _ _ _ _ Hf) in H2 as (a2 & -> & Ha2).
    rewrite (Hgf a1), (Hgf a2) in E by eauto. by subst. }
  apply map_eq. intros j. apply option_eq. intros v.
  rewrite (rename_keys_lookup _ _ _ _ Hg). split.
  - intros (k & -> & Hk). apply (rename_keys_lookup _ _ _ _ Hf) in Hk as (a & -> & Ha).
    by rewrite Hgf by eauto.
  - intros Hj. exists (f j). rewrite Hgf by eauto. split; [done|].
    apply (rename_keys_lookup _ _ _ _ Hf). eauto.
Qed.

Lemma pack_fold_lookup (l : list nat) start (m : gmap nat nat) :
  NoDup l -> (forall x, x ∈ l -> m !! x = None) ->
  forall p i, foldl pack_step m (zip l (seq start (length l))) !! p = Some i <->
              m !! p = Some i \/ (start <= i /\ l !! (i - start) = Some p).
Proof.
  revert start m. induction l as [|x l IH]; intros start m Hnd Hm p i; simpl.
  - split; [by left|]. intros [H|[_ H]]; [done|]. by rewrite lookup_nil in H.
  - apply NoDup_cons in Hnd as [Hx Hnd].
    unfold pack_step at 2. simpl. rewrite (Hm x) by constructor.
    rewrite IH; [|done|].
    2:{ intros y Hy. rewrite lookup_insert_ne; [apply Hm; by constructor|].
        intros ->. done. }
    destruct (decide (p = x)) as [->|Hp].
    + rewrite lookup_insert_eq, (Hm x) by constructor. split.
      * intros [H|[H1 H2]]; [inversion H; subst; right; split; [lia|];
          by rewrite Nat.sub_diag|].
        exfalso. apply Hx. by eapply list_elem_of_lookup_2.
      * intros [H|[H1 H2]]; [done|].
        destruct (i - start) as [|n] eqn:E; [left; f_equal; lia|].
        exfalso. apply Hx. simpl in H2. by eapply list_elem_of_lookup_2.
    + rewrite lookup_insert_ne by congruence. split.
      * intros [H|[H1 H2]]; [by left|]. right. split; [lia|].
        replace (i - start) with (S (i - S start)) by lia. done.
      * intros [H|[H1 H2]]; [by left|]. right.
        destruct (i - start) as [|n] eqn:E; [simpl in H2; congruence|].
        split; [lia|]. replace (i - S start) with n by lia. done.
Qed.

Lemma dict_zip_fold_lookup (l : list nat) start (m : gmap nat nat) i :
  foldl dict_set_item m (zip (seq start (length l)) l) !! i =
    if decide (start <= i < start + length l) then l !! (i - start) else m !! i.
Proof.
  revert start m. induction l as [|x l IH]; intros start m; simpl.
  - case_decide; [lia|done].
  - rewrite IH. unfold dict_set_item; simpl.
    repeat case_decide; try lia.
    + replace (i - start) with (S (i - S start)) by lia. done.
    + assert (i = start) as -> by lia. by rewrite lookup_insert_eq, Nat.sub_diag.
    + rewrite lookup_insert_ne by lia. done.
Qed.

Lemma pack_mapping_lookup (l : list nat) p i :
  NoDup l -> pack_mapping l !! p = Some i <-> l !! i = Some p.
Proof.
  intros Hnd. unfold pack_mapping. rewrite pack_fold_lookup; [|done|done].
  rewrite lookup_empty, Nat.sub_0_r. split; [intros [H|[_ H]]; done|]. intros H; right; split; [lia|done].
Qed.

Lemma pack_mapping_params (l : list nat) :
  NoDup l -> map (fun p => default 0 (pack_mapping l !! p)) l = seq 0 (length l).
Proof.
  intros Hnd. apply list_eq. intros i. rewrite lookup_map_list.
  destruct (l !! i) as [p|] eqn:E; simpl.
  - rewrite (proj2 (pack_mapping_lookup l p i Hnd) E). simpl.
    rewrite lookup_seq_lt; [done|]. by eapply lookup_lt_Some.
  - rewrite lookup_seq_ge; [done|]. by apply lookup_ge_None.
Qed.

Lemma pack_mapping_inj (l : list nat) (m : gmap nat nat) :
  NoDup l -> (forall k, is_Some (m !! k) -> k ∈ l) ->
  forall k1 k2, is_Some (m !! k1) -> is_Some (m !! k2) ->
    default 0 (pack_mapping l !! k1) = default 0 (pack_mapping l !! k2) -> k1 = k2.
Proof.
  intros Hnd Hm k1 k2 H1 H2.
  apply Hm, list_elem_of_lookup in H1 as [i1 E1].
  apply Hm, list_elem_of_lookup in H2 as [i2 E2].
  rewrite (proj2 (pack_mapping_lookup l _ _ Hnd) E1), (proj2 (pack_mapping_lookup l _ _ Hnd) E2).
  simpl. intros ->. congruence.
Qed.

Lemma state_dict_one_group (o : Optimizer) hyp (l : list nat) :
  param_groups o = [(hyp, l)] -> NoDup l ->
  (forall k, is_Some (opt_state o !! k) -> k ∈ l) ->
  state_dict o = Ok {| sd_state := rename_keys (fun k => default 0 (pack_mapping l !! k)) (opt_state o);
                       sd_param_groups := [(hyp, seq 0 (length l))] |}.
Proof.
  intros Hg Hnd Hk. unfold state_dict. rewrite Hg. simpl.
  fold (pack_mapping l). rewrite pack_mapping_params by done.
  replace (forallb _ _) with true; [done|]. symmetry. apply forallb_forall.
  intros [k v] Hin%list_elem_of_In%elem_of_map_to_list. apply bool_decide_eq_true. simpl.
  assert (k ∈ l) as [i Ei]%list_elem_of_lookup by (apply Hk; eauto).
  exists i. by apply pack_mapping_lookup.
Qed.

Lemma dict_zip_seq (l : list nat) i :
  dict_zip (seq 0 (length l)) l !! i = l !! i.
Proof.
  unfold dict_zip. rewrite dict_zip_fold_lookup. case_decide.
  - by rewrite Nat.sub_0_r.
  - rewrite lookup_empty. symmetry. apply lookup_ge_None. lia.
Qed.

(** After [state_dict] and [load_state_dict] through a one-group optimizer
    over [ps], the state is keyed by [ps] in the same positions. *)
Lemma restored_state_dict (ps gps : list nat) (S : gmap nat nat) hyp cls :
  NoDup ps -> NoDup gps -> length ps = length gps ->
  (forall k, is_Some (S !! k) -> k ∈ gps) ->
  let sd := rename_keys (fun k => default 0 (pack_mapping gps !! k)) S in
  state_dict {| opt_class := cls; param_groups := [(hyp, ps)];
                opt_state := rename_keys (fun k => default k (dict_zip (seq 0 (length gps) ++ []) (ps ++ []) !! k)) sd |}
  = Ok {| sd_state := sd; sd_param_groups := [(hyp, seq 0 (length gps))] |}.
Proof.
  intros Hps Hgps Hlen HS sd.
  rewrite !app_nil_r, <- Hlen.
  assert (Hinj := pack_mapping_inj gps S Hgps HS).
  assert (Hsd : forall k, is_Some (sd !! k) -> k < length ps).
  { intros k [v Hv]. apply (rename_keys_lookup _ _ _ _ Hinj) in Hv as (a & -> & Ha).
    assert (a ∈ gps) as [i Ei]%list_elem_of_lookup by (apply HS; eauto).
    rewrite (proj2 (pack_mapping_lookup gps _ _ Hgps) Ei). simpl. rewrite Hlen. by eapply lookup_lt_Some. }
  assert (Hid : forall k, k < length ps -> exists p, ps !! k = Some p /\
                  default k (dict_zip (seq 0 (length ps)) ps !! k) = p).
  { intros k Hk. destruct (lookup_lt_is_Some_2 ps k Hk) as [p Hp].
    exists p. by rewrite dict_zip_seq, Hp. }
  assert (Hinv : forall k, is_Some (sd !! k) ->
            default 0 (pack_mapping ps !! default k (dict_zip (seq 0 (length ps)) ps !! k)) = k).
  { intros k Hk. destruct (Hid k (Hsd k Hk)) as (p & Hp & ->).
    by rewrite (proj2 (pack_mapping_lookup ps _ _ Hps) Hp). }
  rewrite (state_dict_one_group _ hyp ps); [| done | done |].
  - simpl. rewrite rename_keys_inverse by exact Hinv. done.
  - intros j [v Hv]. simpl in Hv.
    assert (Hinj2 : forall k1 k2, is_Some (sd !! k1) -> is_Some (sd !! k2) ->
              default k1 (dict_zip (seq 0 (length ps)) ps !! k1) =
              default k2 (dict_zip (seq 0 (length ps)) ps !! k2) -> k1 = k2).
    { intros k1 k2 H1 H2 E. rewrite <- (Hinv k1 H1), <- (Hinv k2 H2). by rewrite E. }
    apply (rename_keys_lookup _ _ _ _ Hinj2) in Hv as (k & -> & Hk).
    destruct (Hid k (Hsd k (mk_is_Some _ _ Hk))) as (p & Hp & ->).
    by eapply list_elem_of_lookup_2.
Qed.

Lemma construct_optimizer_nonempty defaults cls (ps : list nat) :
  ps <> [] ->
  construct_optimizer defaults cls ps =
    Ok {| opt_class := cls; param_groups := [(<["lr" := 1%Q]> (defaults cls), ps)];
          opt_state := ∅ |}.
Proof. destruct ps; [done|reflexivity]. Qed.

Lemma load_state_dict_one_group (n : Optimizer) hyp0 hyp (ps : list nat) n' sd :
  param_groups n = [(hyp0, ps)] -> length ps = n' ->
  load_state_dict n {| sd_state := sd; sd_param_groups := [(hyp, seq 0 n')] |} =
    Ok {| opt_class := opt_class n; param_groups := [(hyp, ps)];
          opt_state := rename_keys (fun k => default k (dict_zip (seq 0 n' ++ []) (ps ++ []) !! k)) sd |}.
Proof.
  intros Hg Hl. unfold load_state_dict. rewrite Hg. simpl.
  rewrite length_seq, Hl, Nat.eqb_refl. reflexivity.
Qed.

Lemma pack_groups_sizes m start gs :
  map (fun g => length g.2) (pack_groups m start gs).2 = map (fun g => length g.2) gs.
Proof.
  revert m start. induction gs as [|g gs IH]; intros m start; [done|]. simpl.
  specialize (IH (foldl pack_step m (zip g.2 (seq start (length g.2)))) (start + length g.2)).
  destruct (pack_groups _ _ gs) as [m'' pgs]. simpl in *. by rewrite length_map, IH.
Qed.

(** [state_dict] keeps the number of groups and the size of each. *)
Lemma state_dict_sizes o sd :
  state_dict o = Ok sd ->
  map (fun g => length g.2) (sd_param_groups sd) = map (fun g => length g.2) (param_groups o).
Proof.
  unfold state_dict. pose proof (pack_groups_sizes ∅ 0 (param_groups o)) as H.
  destruct (pack_groups ∅ 0 (param_groups o)) as [m gs].
  destruct (forallb _ _); [|discriminate]. intros [= <-]. done.
Qed.

(** [getOptimizer] up to [load_state_dict], for a truthy model. *)
Lemma getOptimizer_load (defaults : nat -> gmap string Q) h self mv mi oi ps o sd :
  getModel self = Ok mv -> truthy mv = true -> (mv = PObj mi \/ exists n, mv = PSized mi n) ->
  _get_optimizer self = Ok (PObj oi) ->
  h !! mi = Some (HModule ps) -> h !! oi = Some (HOptimizer o) ->
  state_dict o = Ok sd -> ps <> [] ->
  getOptimizer defaults h self =
    rbind (load_state_dict {| opt_class := opt_class o;
                              param_groups := [(<["lr" := 1%Q]> (defaults (opt_class o)), ps)];
                              opt_state := ∅ |} sd) (fun optimzer =>
    Ok (<[fresh (dom h) := HOptimizer optimzer]> h, PObj (fresh (dom h)))).
Proof.
  intros Hm Ht Hmv Ho Hmi Hoi Hsd Hne.
  unfold getOptimizer. rewrite Hm. cbn [rbind]. rewrite Ht, Ho. cbn [rbind].
  unfold deref_optimizer. rewrite Hoi. cbn [rbind]. rewrite Hsd. cbn [rbind].
  destruct Hmv as [->|[n ->]]; unfold model_parameters; rewrite Hmi; cbn [rbind];
    rewrite construct_optimizer_nonempty by done; reflexivity.
Qed.

(** C10 (amended): when the model is a truthy torch module (a module
    object or a non-empty container) with a non-empty, duplicate-free
    parameter list and the stored optimizer has exactly one parameter
    group, of as many duplicate-free parameters, holding the keys of its
    state, [getOptimizer] (of the estimator and of the model alike) returns
    a new object, of the stored optimizer's class and with the model's
    parameters, whose [state_dict] equals the stored optimizer's, and the
    stored optimizer is left as it was.  When the stored optimizer has a
    number of groups other than one, or one group of a size other than the
    model's parameter count, [load_state_dict] raises [ValueError] and no
    optimizer is returned.  When the model is falsy ([None], or an empty
    container module), it returns the stored optimizer value as it is and
    allocates nothing. *)
Theorem getOptimizer_one_group (defaults : nat -> gmap string Q) (h : gmap nat heapobj) (self : Params) :
  (forall mv mi oi (ps : list nat) o hyp (gps : list nat),
     getModel self = Ok mv -> truthy mv = true -> (mv = PObj mi \/ exists n, mv = PSized mi n) ->
     _get_optimizer self = Ok (PObj oi) ->
     h !! mi = Some (HModule ps) -> h !! oi = Some (HOptimizer o) ->
     param_groups o = [(hyp, gps)] -> NoDup gps -> NoDup ps -> ps <> [] ->
     length ps = length gps -> (forall k, is_Some (opt_state o !! k) -> k ∈ gps) ->
     exists o',
       TorchEstimator_getOptimizer defaults h self =
         Ok (<[fresh (dom h) := HOptimizer o']> h, PObj (fresh (dom h))) /\
       TorchModel_getOptimizer defaults h self =
         Ok (<[fresh (dom h) := HOptimizer o']> h, PObj (fresh (dom h))) /\
       h !! fresh (dom h) = None /\
       opt_class o' = opt_class o /\
       state_dict o' = state_dict o /\
       param_groups o' = [(hyp, ps)] /\
       <[fresh (dom h) := HOptimizer o']> h !! oi = Some (HOptimizer o)) /\
  (forall mv mi oi (ps : list nat) o sd,
     getModel self = Ok mv -> truthy mv = true -> (mv = PObj mi \/ exists n, mv = PSized mi n) ->
     _get_optimizer self = Ok (PObj oi) ->
     h !! mi = Some (HModule ps) -> h !! oi = Some (HOptimizer o) ->
     state_dict o = Ok sd -> ps <> [] ->
     (length (param_groups o) <> 1 ->
        TorchEstimator_getOptimizer defaults h self =
          Err (ValueError "loaded state dict has a different number of parameter groups") /\
        TorchModel_getOptimizer defaults h self =
          Err (ValueError "loaded state dict has a different number of parameter groups")) /\
     (forall hyp gps, param_groups o = [(hyp, gps)] -> length gps <> length ps ->
        TorchEstimator_getOptimizer defaults h self =
          Err (ValueError "loaded state dict contains a parameter group that doesn't match the size of optimizer's group") /\
        TorchModel_getOptimizer defaults h self =
          Err (ValueError "loaded state dict contains a parameter group that doesn't match the size of optimizer's group"))) /\
  (forall v, getModel self = Ok v -> truthy v = false ->
     TorchEstimator_getOptimizer defaults h self = rbind (_get_optimizer self) (fun o => Ok (h, o)) /\
     TorchModel_getOptimizer defaults h self = rbind (_get_optimizer self) (fun o => Ok (h, o))).
Proof.
  split; [|split].
  - intros mv mi oi ps o hyp gps Hm Ht Hmv Ho Hmi Hoi Hg Hgps Hps Hne Hlen Hk.
    set (sd := rename_keys (fun k => default 0 (pack_mapping gps !! k)) (opt_state o)).
    set (o' := {| opt_class := opt_class o; param_groups := [(hyp, ps)];
                  opt_state := rename_keys (fun k => default k
                    (dict_zip (seq 0 (length gps) ++ []) (ps ++ []) !! k)) sd |}).
    assert (Hfresh : h !! fresh (dom h) = None).
    { apply not_elem_of_dom. apply is_fresh. }
    assert (Hget : getOptimizer defaults h self =
                   Ok (<[fresh (dom h) := HOptimizer o']> h, PObj (fresh (dom h)))).
    { rewrite (getOptimizer_load defaults h self mv mi oi ps o _ Hm Ht Hmv Ho Hmi Hoi
                 (state_dict_one_group o hyp gps Hg Hgps Hk) Hne).
      erewrite load_state_dict_one_group; [reflexivity|reflexivity|exact Hlen]. }
    exists o'. split; [exact Hget|]. split; [exact Hget|]. split; [exact Hfresh|].
    split; [reflexivity|]. split.
    + rewrite (state_dict_one_group o hyp gps Hg Hgps Hk).
      apply restored_state_dict; done.
    + split; [reflexivity|]. rewrite lookup_insert_ne; [exact Hoi|].
      intros E. rewrite <- E, Hfresh in Hoi. discriminate.
  - intros mv mi oi ps o sd Hm Ht Hmv Ho Hmi Hoi Hsd Hne.
    unfold TorchEstimator_getOptimizer, TorchModel_getOptimizer.
    rewrite (getOptimizer_load defaults h self mv mi oi ps o sd Hm Ht Hmv Ho Hmi Hoi Hsd Hne).
    pose proof (state_dict_sizes o sd Hsd) as Hs.
    assert (Hl : length (sd_param_groups sd) = length (param_groups o))
      by (apply (f_equal length) in Hs; rewrite !length_map in Hs; exact Hs).
    unfold load_state_dict. cbn [param_groups length]. split.
    + intros H1. rewrite Hl. destruct (Nat.eqb 1 (length (param_groups o))) eqn:E.
      * apply Nat.eqb_eq in E. congruence.
      * split; reflexivity.
    + intros hyp gps Hg Hgs. rewrite Hl, Hg. cbn [length Nat.eqb negb].
      rewrite Hg in Hs. destruct (sd_param_groups sd) as [|[hyp' gps'] [|]]; try discriminate.
      simpl in Hs. injection Hs as Hs. simpl. rewrite Hs.
      destruct (Nat.eqb (length ps) (length gps)) eqn:E.
      * apply Nat.eqb_eq in E. congruence.
      * split; reflexivity.
  - intros v Hm Hf. unfold TorchEstimator_getOptimizer, TorchModel_getOptimizer, getOptimizer.
    rewrite Hm. simpl. rewrite Hf. split; reflexivity.
Qed.

(** C10 counterexample: a stored optimizer with two parameter groups
    (here over parameters 20 and 21) cannot be rebuilt: the new optimizer
    has one group, so [load_state_dict] raises [ValueError] and
    [getOptimizer] returns no optimizer. *)
Lemma getOptimizer_two_groups_fails :
  match TorchModel_init [("model", PObj 1); ("optimizer", PObj 2)] with
  | Ok self => TorchModel_getOptimizer (fun _ => ∅)
                 (demo_opt_heap [(∅, [20]); (∅, [21])]) self =
               Err (ValueError "loaded state dict has a different number of parameter groups")
  | Err _ => False
  end.
Proof. vm_compute. reflexivity. Qed.

(** The amended C10 property on a model with parameters 10 and 11 and a
    one-group optimizer over parameters 20 and 21. *)
Lemma getOptimizer_one_group_witness :
  exists self, TorchModel_init [("model", PObj 1); ("optimizer", PObj 2)] = Ok self /\
  exists o', TorchEstimator_getOptimizer (fun _ => ∅) (demo_opt_heap [(∅, [20; 21])]) self =
    Ok (<[fresh (dom (demo_opt_heap [(∅, [20; 21])])) := HOptimizer o']> (demo_opt_heap [(∅, [20; 21])]),
        PObj (fresh (dom (demo_opt_heap [(∅, [20; 21])])))) /\
    state_dict o' = state_dict {| opt_class := 7; param_groups := [(∅, [20; 21])];
                                  opt_state := <[20 := 5]> ∅ |}.
Proof.
  destruct (TorchModel_init [("model", PObj 1); ("optimizer", PObj 2)]) as [self|e] eqn:E;
    [|vm_compute in E; discriminate].
  exists self. split; [reflexivity|].
  assert (Hm : getModel self = Ok (PObj 1)) by (vm_compute in E; injection E as <-; reflexivity).
  assert (Ho : _get_optimizer self = Ok (PObj 2)) by (vm_compute in E; injection E as <-; reflexivity).
  assert (N1 : NoDup [20; 21]) by (repeat constructor; set_solver).
  assert (N2 : NoDup [10; 11]) by (repeat constructor; set_solver).
  assert (Ne : [10; 11] <> []) by discriminate.
  assert (Hk : forall k, is_Some (opt_state {| opt_class := 7; param_groups := [(∅, [20; 21])];
                                               opt_state := <[20 := 5]> ∅ |} !! k) -> k ∈ [20; 21]).
  { intros k [v Hv]. destruct (decide (k = 20)) as [->|Hk]; [by left|].
    simpl in Hv. rewrite lookup_insert_ne in Hv by congruence. discriminate. }
  destruct (proj1 (getOptimizer_one_group (fun _ => ∅) (demo_opt_heap [(∅, [20; 21])]) self)
              (PObj 1) 1 2 [10; 11] {| opt_class := 7; param_groups := [(∅, [20; 21])];
                                       opt_state := <[20 := 5]> ∅ |} ∅ [20; 21]
              Hm eq_refl (or_introl eq_refl) Ho eq_refl eq_refl eq_refl N1 N2 Ne eq_refl Hk)
    as (o' & H1 & _ & _ & _ & H2 & _).
  exists o'. split; [exact H1|exact H2].
Defined.

(* ================================================================== *)
(** * Further properties of the code *)


(** Extra: [TorchEstimator.__init__] stores each keyword argument it is passed (other than [loss] and [loss_constructor]) as converted by its param's [typeConverter], which must accept it (so an int [validation_split] is stored as a float and a tuple of column names as a list); a param not passed reads its [EstimatorParams] default; [loss_constructors] reads [None] when not passed; and [input_shapes], which has no default, raises [KeyError] when not passed. *)
Theorem TorchEstimator_init_params kw est :
  TorchEstimator_init kw = Ok est ->
  (forall k v, k <> "loss" -> k <> "loss_constructor" -> kw_in k kw = true ->
     (forall kv, In kv kw -> kv.1 = k -> kv.2 = v) ->
     exists v', param_value TorchEstimator_params k v = Ok v' /\ getOrDefault est k = Ok v') /\
  (forall k v, kw_in k kw = false -> In (k, v) EstimatorParams_defaults ->
     getOrDefault est k = Ok v) /\
  (kw_in "loss_constructor" kw = false -> getLossConstructors est = Ok PNone) /\
  (kw_in "input_shapes" kw = false ->
     getOrDefault est "input_shapes" = Err (KeyError "input_shapes")).
Proof.
  intros Hi. split; [|split; [|split]].
  - intros k v H1 H2 H3 H4. by apply (TorchEstimator_init_passed kw).
  - intros k v H1 H2. rewrite (TorchEstimator_init_not_passed kw est k Hi H1).
    by apply TorchEstimator_defaults_get.
  - intros H. unfold getLossConstructors.
    rewrite (TorchEstimator_init_not_passed kw est _ Hi H). vm_compute. reflexivity.
  - intros H. rewrite (TorchEstimator_init_not_passed kw est _ Hi H). vm_compute. reflexivity.
Qed.

(** Witness: [TorchEstimator(num_proc=2, epochs=5, validation_split=1, feature_cols=('a',))]. *)
Lemma TorchEstimator_init_params_witness :
  exists est, TorchEstimator_init [("num_proc", PInt 2); ("epochs", PInt 5);
                                   ("validation_split", PInt 1);
                                   ("feature_cols", PTuple [PStr "a"])] = Ok est /\
    getOrDefault est "epochs" = Ok (PInt 5) /\
    getOrDefault est "validation_split" = Ok (PFloat 1) /\
    getOrDefault est "feature_cols" = Ok (PList [PStr "a"]) /\
    getOrDefault est "batch_size" = Ok (PInt 32) /\
    getLossConstructors est = Ok PNone /\
    getOrDefault est "input_shapes" = Err (KeyError "input_shapes").
Proof.
  set (est := py_set TorchEstimator_defaults [("num_proc", PInt 2); ("epochs", PInt 5);
                                              ("validation_split", PFloat 1);
                                              ("feature_cols", PList [PStr "a"])]).
  assert (Hi : TorchEstimator_init [("num_proc", PInt 2); ("epochs", PInt 5);
                                    ("validation_split", PInt 1);
                                    ("feature_cols", PTuple [PStr "a"])] = Ok est)
    by (vm_compute; reflexivity).
  exists est. split; [exact Hi|].
  destruct (TorchEstimator_init_params _ _ Hi) as (H1 & H2 & H3 & H4).
  split; [|split; [|split; [|split; [|split]]]].
  - destruct (H1 "epochs" (PInt 5)) as (v' & Hp & Hg); [discriminate|discriminate|reflexivity| |].
    + intros kv Hin Hk. simpl in Hin.
      repeat (destruct Hin as [<-|Hin]; [simpl in Hk; try discriminate; done|]). done.
    + vm_compute in Hp. injection Hp as <-. exact Hg.
  - destruct (H1 "validation_split" (PInt 1)) as (v' & Hp & Hg);
      [discriminate|discriminate|reflexivity| |].
    + intros kv Hin Hk. simpl in Hin.
      repeat (destruct Hin as [<-|Hin]; [simpl in Hk; try discriminate; done|]). done.
    + vm_compute in Hp. injection Hp as <-. exact Hg.
  - destruct (H1 "feature_cols" (PTuple [PStr "a"])) as (v' & Hp & Hg);
      [discriminate|discriminate|reflexivity| |].
    + intros kv Hin Hk. simpl in Hin.
      repeat (destruct Hin as [<-|Hin]; [simpl in Hk; try discriminate; done|]). done.
    + vm_compute in Hp. injection Hp as <-. exact Hg.
  - apply H2; [reflexivity|]. simpl. tauto.
  - apply H3. reflexivity.
  - apply H4. reflexivity.
Defined.

(** Extra: [_should_validate] on a constructed estimator: false when neither [validation_col] nor [validation_split] is passed; true when a non-[None] [validation_col] is passed; with a float [validation_split] and no column, true exactly when the split is positive; and a [None] split with no column raises [TypeError] on the comparison. *)
Theorem should_validate_init kw est :
  TorchEstimator_init kw = Ok est ->
  (kw_in "validation_col" kw = false -> kw_in "validation_split" kw = false ->
     _should_validate est = Ok false) /\
  (forall v, kw_in "validation_col" kw = true ->
     (forall kv, In kv kw -> kv.1 = "validation_col" -> kv.2 = v) -> v <> PNone ->
     _should_validate est = Ok true) /\
  (forall q, kw_in "validation_col" kw = false -> kw_in "validation_split" kw = true ->
     (forall kv, In kv kw -> kv.1 = "validation_split" -> kv.2 = PFloat q) ->
     _should_validate est = Ok true <-> (0 < q)%Q) /\
  (kw_in "validation_col" kw = false -> kw_in "validation_split" kw = true ->
     (forall kv, In kv kw -> kv.1 = "validation_split" -> kv.2 = PNone) ->
     _should_validate est = Err (TypeError "'>' not supported between instances")).
Proof.
  intros Hi. unfold _should_validate.
  assert (Hvc0 : kw_in "validation_col" kw = false -> getOrDefault est "validation_col" = Ok PNone).
  { intros H. rewrite (TorchEstimator_init_not_passed kw est _ Hi H).
    apply TorchEstimator_defaults_get. simpl; tauto. }
  split; [|split; [|split]].
  - intros H1 H2. rewrite (Hvc0 H1). simpl.
    rewrite (TorchEstimator_init_not_passed kw est _ Hi H2).
    rewrite (TorchEstimator_defaults_get "validation_split" (PFloat 0)); [|simpl; tauto].
    reflexivity.
  - intros v H1 H2 H3.
    destruct (TorchEstimator_init_passed kw est "validation_col" v Hi) as (v' & Hp & ->); [done..|].
    assert (v' = v) as ->
      by (revert Hp; unfold param_value; simpl; destruct v; simpl; congruence).
    simpl. by destruct v.
  - intros q H1 H2 H3. rewrite (Hvc0 H1). simpl.
    destruct (TorchEstimator_init_passed kw est "validation_split" (PFloat q) Hi)
      as (v' & Hp & ->); [done..|].
    simpl in Hp. injection Hp as <-.
    simpl. destruct (Qle_bool q 0) eqn:E; simpl.
    + apply Qle_bool_iff in E. split; [discriminate|]. intros Hq. lra.
    + split; [intros _|done]. apply Qnot_le_lt. intros Hq.
      apply Qle_bool_iff in Hq. congruence.
  - intros H1 H2 H3. rewrite (Hvc0 H1). simpl.
    destruct (TorchEstimator_init_passed kw est "validation_split" PNone Hi)
      as (v' & Hp & ->); [done..|].
    simpl in Hp. injection Hp as <-. reflexivity.
Qed.

Lemma find_param_some params k :
  k ∈ params.*1 ->
  exists pc, List.find (fun pc : string * TypeConverters.t => String.eqb pc.1 k) params = Some pc.
Proof.
  intros Hk. destruct (List.find _ params) as [pc|] eqn:Hf; [eauto|]. exfalso.
  apply list_elem_of_In in Hk. apply in_map_iff in Hk as [[k' c] [<- Hin]].
  eapply find_none in Hf; [|exact Hin]. simpl in Hf. by rewrite String.eqb_refl in Hf.
Qed.

(** Extra: a setter [setX(value)] of a [TorchEstimator] ([self._set(x=value)]) stores the value as converted by the param's [typeConverter] (so [setValidationSplit(1)] stores [1.0] and [setLabelCols(('a',))] a list) and [None] as it is, leaving every other param and all defaults as they were; a value the converter rejects (such as [setBatchSize('x')]) raises [TypeError]. *)
Theorem set_param_get (self : Params) (name : string) (value : pyval) :
  name ∈ TorchEstimator_params.*1 ->
  (forall v', param_value TorchEstimator_params name value = Ok v' ->
     exists self', set_param self name value = Ok self' /\
       getOrDefault self' name = Ok v' /\
       (forall k, k <> name -> getOrDefault self' k = getOrDefault self k) /\
       default_map self' = default_map self) /\
  param_value TorchEstimator_params name PNone = Ok PNone /\
  (is_ok (param_value TorchEstimator_params name value) = false ->
     exists msg, set_param self name value = Err (TypeError msg)).
Proof.
  intros Hn. split; [|split].
  - intros v' Hp. unfold set_param, _set. simpl. rewrite Hp. simpl.
    eexists. split; [reflexivity|].
    unfold getOrDefault, py_set. simpl. split; [|split].
    + by rewrite lookup_insert_eq.
    + intros k Hk. by rewrite lookup_insert_ne.
    + done.
  - destruct (find_param_some _ _ Hn) as [pc Hf]. unfold param_value. by rewrite Hf.
  - intros Hb. apply _set_type_error.
    + intros kv [<-|[]]. done.
    + exists (name, value). split; [by left|done].
Qed.

Lemma bind_ok_inv {A B} (m : M A) (k : A -> M B) tr x :
  snd (bind m k tr) = Ok x -> exists a tr', m tr = (tr', Ok a) /\ snd (k a tr') = Ok x.
Proof. unfold bind. destruct (m tr) as [tr' [a|e]]; [eauto|discriminate]. Qed.

Lemma bind_ok {A B} (m : M A) (k : A -> M B) tr tr' a :
  m tr = (tr', Ok a) -> bind m k tr = k a tr'.
Proof. unfold bind. by intros ->. Qed.

Lemma bind_err {A B} (m : M A) (k : A -> M B) tr tr' e :
  m tr = (tr', Err e) -> bind m k tr = (tr', Err e).
Proof. unfold bind. by intros ->. Qed.

Lemma _create_model_params C est rrs run_id md tr m :
  snd (_create_model C est rrs run_id md tr) = Ok m ->
  exists fc is lc,
    getOrDefault est "feature_cols" = Ok fc /\ getOrDefault est "input_shapes" = Ok is /\
    getOrDefault est "label_cols" = Ok lc /\
    getOrDefault m "feature_columns" = Ok fc /\ getOrDefault m "input_shapes" = Ok is /\
    getOrDefault m "label_columns" = Ok lc /\ getOrDefault m "run_id" = Ok run_id /\
    getOrDefault m "_metadata" = Ok md.
Proof.
  unfold _create_model. intros H.
  apply bind_ok_inv in H as (rr & tr1 & _ & H).
  apply bind_ok_inv in H as (model & tr2 & _ & H).
  apply bind_ok_inv in H as (bio & tr3 & _ & H).
  apply bind_ok_inv in H as (opt & tr4 & _ & H).
  apply bind_ok_inv in H as (kw & tr5 & Hkw & H).
  unfold lift in H; simpl in H.
  unfold _get_model_kwargs, get, lift, bind, ret in Hkw.
  destruct (getOrDefault est "feature_cols") as [fc|] eqn:Efc; [|discriminate].
  destruct (getOrDefault est "input_shapes") as [is|] eqn:Eis; [|discriminate].
  destruct (getOrDefault est "label_cols") as [lc|] eqn:Elc; [|discriminate].
  injection Hkw as _ <-.
  exists fc, is, lc. do 3 (split; [done|]).
  split; [|split; [|split; [|split]]];
    (eapply TorchModel_init_get; [exact H|discriminate|reflexivity|]);
    intros kv Hin Hk; simpl in Hin;
    repeat (destruct Hin as [<-|Hin]; [simpl in Hk; try discriminate; done|]); done.
Qed.

Lemma _check_model_compatibility_err C self md fc lc tr :
  getOrDefault self "feature_cols" = Ok fc -> getOrDefault self "label_cols" = Ok lc ->
  (forall e, getOrDefault self "input_shapes" = Err e ->
     _check_model_compatibility C self md tr = (tr, Err e)) /\
  (forall is e, getOrDefault self "input_shapes" = Ok is ->
     check_shape_compatibility C md fc lc is = Err e ->
     _check_model_compatibility C self md tr = (tr ++ [EvCheckShape md], Err e)).
Proof.
  intros Hf Hl. unfold _check_model_compatibility.
  rewrite (bind_get _ _ _ _ _ Hf), (bind_get _ _ _ _ _ Hl). split.
  - intros e He. unfold bind, get, lift. by rewrite He.
  - intros is e Hi Hc. rewrite (bind_get _ _ _ _ _ Hi). unfold call. by rewrite Hc.
Qed.

Lemma _fit_on_prepared_data_check C self b trr vr md ars m fc lc tr :
  getOrDefault self "model" = Ok m -> truthy m = true ->
  getOrDefault self "feature_cols" = Ok fc -> getOrDefault self "label_cols" = Ok lc ->
  (forall e, getOrDefault self "input_shapes" = Err e ->
     _fit_on_prepared_data C self b trr vr md ars tr = (tr, Err e)) /\
  (forall is e, getOrDefault self "input_shapes" = Ok is ->
     check_shape_compatibility C md fc lc is = Err e ->
     _fit_on_prepared_data C self b trr vr md ars tr = (tr ++ [EvCheckShape md], Err e)).
Proof.
  intros Hm Ht Hf Hl. unfold _fit_on_prepared_data.
  rewrite (bind_get _ _ _ _ _ Hm), Ht. cbn [negb].
  destruct (_check_model_compatibility_err C self md fc lc tr Hf Hl) as [H1 H2]. split.
  - intros e He. by apply bind_err with (tr' := tr) (e := e), H1.
  - intros is e Hi Hc. by apply bind_err with (e := e), (H2 is).
Qed.

Lemma bind_eq_ok_inv {A B} (m : M A) (k : A -> M B) tr tr'' x :
  bind m k tr = (tr'', Ok x) -> exists a tr', m tr = (tr', Ok a) /\ k a tr' = (tr'', Ok x).
Proof. unfold bind. destruct (m tr) as [tr' [a|e]]; [eauto|discriminate]. Qed.

Lemma _load_checkpoint_extends C self run_id : extends (_load_checkpoint C self run_id).
Proof. unfold _load_checkpoint, get. extends_tac. Qed.

Lemma resolve_last_checkpoint_state_path C self run_id tr tr' x :
  resolve_last_checkpoint_state C self run_id tr = (tr', Ok x) ->
  exists rest, tr' = tr ++ EvGetCheckpointPath run_id :: rest.
Proof.
  unfold resolve_last_checkpoint_state, _has_checkpoint. intros H.
  apply bind_eq_ok_inv in H as (has & tr1 & H1 & H).
  apply bind_eq_ok_inv in H1 as (st & tr2 & E2 & H1).
  unfold get, lift in E2. injection E2 as <- _.
  apply bind_eq_ok_inv in H1 as (p & tr3 & E3 & H1).
  unfold call in E3. injection E3 as <- _.
  assert (X1 : exists rest, tr1 = tr ++ EvGetCheckpointPath run_id :: rest).
  { destruct (is_none p).
    - unfold ret in H1. injection H1 as <- _. by exists [].
    - unfold call in H1. injection H1 as <- _. exists [EvExists p]. by rewrite <- app_assoc. }
  destruct X1 as [r1 ->].
  destruct has.
  - destruct (_load_checkpoint_extends C self run_id (tr ++ EvGetCheckpointPath run_id :: r1))
      as [r2 Hr2].
    rewrite H in Hr2. simpl in Hr2. subst tr'. exists (r1 ++ r2). by rewrite <- app_assoc.
  - unfold ret in H. injection H as <- _. by exists r1.
Qed.

(** Extra: a successful [_fit_on_prepared_data] uses one run id throughout: the estimator's [run_id], or ['pytorch_' + str(int(time.time()))] when it is [None]; the checkpoint path is looked up for it, the trainer that runs carries it with the estimator and the metadata, and the returned model has it as [run_id]. *)
Theorem _fit_on_prepared_data_run_id C self b trr vr md ars tr r m :
  getOrDefault self "run_id" = Ok r ->
  snd (_fit_on_prepared_data C self b trr vr md ars tr) = Ok m ->
  let rid := if is_none r then PStr ("pytorch_" +:+ pretty (time_now C)) else r in
  getOrDefault m "run_id" = Ok rid /\
  exists trainer, In (EvRun b trainer) (fst (_fit_on_prepared_data C self b trr vr md ars tr)) /\
    trainer_run_id trainer = rid /\ trainer_estimator trainer = self /\
    trainer_metadata trainer = md /\
    In (EvGetCheckpointPath rid) (fst (_fit_on_prepared_data C self b trr vr md ars tr)).
Proof.
  intros Hr H rid. unfold _fit_on_prepared_data in *.
  apply bind_ok_inv in H as (mp & tr1 & E1 & H). rewrite (bind_ok _ _ _ _ _ E1).
  cbv beta in *. destruct (negb (truthy mp)); [discriminate|].
  apply bind_ok_inv in H as (u & tr2 & E2 & H). rewrite (bind_ok _ _ _ _ _ E2).
  apply bind_ok_inv in H as (r' & tr3 & E3 & H). rewrite (bind_ok _ _ _ _ _ E3).
  unfold get, lift in E3. rewrite Hr in E3. injection E3 as <- <-.
  cbv beta zeta in *. fold rid in H |- *.
  apply bind_ok_inv in H as (lcs & tr4 & E4 & H). rewrite (bind_ok _ _ _ _ _ E4).
  apply bind_ok_inv in H as (sm & tr5 & E5 & H). rewrite (bind_ok _ _ _ _ _ E5).
  apply bind_ok_inv in H as (handle & tr6 & E6 & H). rewrite (bind_ok _ _ _ _ _ E6).
  cbv beta in *.
  destruct (_create_model_params _ _ _ _ _ _ _ H) as (_ & _ & _ & _ & _ & _ & _ & _ & _ & Hrid & _).
  split; [exact Hrid|].
  eexists. unfold call in E6. injection E6 as <- _.
  match goal with |- context [fst (_create_model ?C ?s ?h ?r ?m ?t)] =>
    destruct (_create_model_extends C s h r m t) as [rest ->] end.
  split; [apply in_or_app; left; apply in_or_app; right; by left|].
  do 3 (split; [reflexivity|]).
  destruct (resolve_last_checkpoint_state_path _ _ _ _ _ _ E4) as [r4 ->].
  unfold call in E5. injection E5 as <- _.
  apply in_or_app; left. apply in_or_app; left. apply in_or_app; left.
  apply in_or_app; right. by left.
Qed.

Section AppendsOnly.
Variable P : event -> Prop.

Lemma ret_appends_only {A} (a : A) : appends_only P (ret a).
Proof. intros tr. exists []. by rewrite app_nil_r. Qed.

Lemma raise_appends_only {A} e : appends_only P (@raise A e).
Proof. intros tr. exists []. by rewrite app_nil_r. Qed.

Lemma lift_appends_only {A} (r : result A) : appends_only P (lift r).
Proof. intros tr. exists []. by rewrite app_nil_r. Qed.

Lemma call_appends_only {A} ev (r : result A) : P ev -> appends_only P (call ev r).
Proof. intros H tr. exists [ev]. split; [done|]. by constructor. Qed.

Lemma bind_appends_only {A B} (m : M A) (k : A -> M B) :
  appends_only P m -> (forall a, appends_only P (k a)) -> appends_only P (bind m k).
Proof.
  intros Hm Hk tr. unfold bind. destruct (Hm tr) as [r1 [H1 F1]].
  destruct (m tr) as [tr' [a|e]]; simpl in *; subst.
  - destruct (Hk a (tr ++ r1)) as [r2 [H2 F2]]. exists (r1 ++ r2).
    rewrite H2, app_assoc. split; [done|]. by apply Forall_app.
  - by exists r1.
Qed.

End AppendsOnly.

Ltac appends_only_tac :=
  repeat first
    [ apply bind_appends_only
    | apply ret_appends_only | apply raise_appends_only | apply lift_appends_only
    | apply call_appends_only; reflexivity
    | progress intros
    | match goal with
      | |- appends_only _ (match ?x with _ => _ end) => destruct x
      | |- appends_only _ (if ?b then _ else _) => destruct b
      end ].

(** Extra: [fit_on_parquet] never builds a Spark backend, asks for the number of processes or prepares data: it only reads the metadata of the parquet store and hands it to [_fit_on_prepared_data] with the estimator's backend. *)
Theorem fit_on_parquet_skips_preparation C gsm kw est be tr :
  (forall self, appends_only (fun ev => pre_fit_event ev = false) (_fit_on_parquet C gsm self)) /\
  (TorchEstimator_init kw = Ok est -> getOrDefault est "backend" = Ok be ->
   exists store lc fc sw,
     _fit_on_parquet C gsm est tr =
       match gsm store lc fc sw with
       | Ok (train_rows, val_rows, metadata, avg_row_size) =>
           _fit_on_prepared_data C est be train_rows val_rows metadata avg_row_size tr
       | Err e => (tr, Err e)
       end).
Proof.
  split.
  - intros self. unfold _fit_on_parquet, get. appends_only_tac.
  - intros Hi Hb.
    assert (G : forall k, k ∈ (EstimatorParams_defaults.*1) -> exists v, getOrDefault est k = Ok v)
      by (intros k; by apply TorchEstimator_init_get with kw).
    destruct (G "store") as [st Hst]; [set_solver|].
    destruct (G "label_cols") as [lc Hlc]; [set_solver|].
    destruct (G "feature_cols") as [fc Hfc]; [set_solver|].
    destruct (G "sample_weight_col") as [sw Hsw]; [set_solver|].
    exists st, lc, fc, sw. unfold _fit_on_parquet.
    rewrite (bind_get _ _ _ _ _ Hb), (bind_get _ _ _ _ _ Hst), (bind_get _ _ _ _ _ Hlc),
      (bind_get _ _ _ _ _ Hfc), (bind_get _ _ _ _ _ Hsw).
    unfold bind at 1, lift. destruct (gsm st lc fc sw) as [[[[a b] c] d]|e]; reflexivity.
Qed.

(** Extra: an estimator constructed without [input_shapes] (which has no default) and with a truthy model (neither [None] nor an empty container module) fails [fit] with [KeyError('input_shapes')] in the shape check, after the backend was resolved and the data was prepared. *)
Theorem fit_without_input_shapes C kw est df np be m ev b n tr :
  TorchEstimator_init kw = Ok est -> kw_in "input_shapes" kw = false ->
  getOrDefault est "num_proc" = Ok np -> getOrDefault est "backend" = Ok be ->
  getOrDefault est "model" = Ok m -> truthy m = true ->
  resolve_backend C be np [] = ([ev], Ok (b, n)) ->
  (forall store lc fc vc vs sw ppp, exists r,
     prepare_data C n store df lc fc vc vs sw ppp = Ok r) ->
  _fit C est df tr = (tr ++ [ev; EvPrepareData n], Err (KeyError "input_shapes")).
Proof.
  intros Hi Hin Hnp Hbe Hm Ht Hres Hprep.
  destruct (_fit_unfold C kw est df np be tr Hi Hnp Hbe) as (st&lc&fc&vc&vs&sw&ppp&->).
  destruct (Hprep st lc fc vc vs sw ppp) as [[[[tr_rows v_rows] md] ars] Hr].
  unfold bind at 1. rewrite resolve_backend_trace, Hres. simpl.
  unfold bind at 1, call at 1. rewrite Hr.
  destruct (TorchEstimator_init_get kw est "feature_cols" Hi) as [fc' Hfc]; [set_solver|].
  destruct (TorchEstimator_init_get kw est "label_cols" Hi) as [lc' Hlc]; [set_solver|].
  rewrite (proj1 (_fit_on_prepared_data_check C est b tr_rows v_rows md ars m fc' lc' _ Hm Ht Hfc Hlc)
             (KeyError "input_shapes")).
  - by rewrite <- app_assoc.
  - rewrite (TorchEstimator_init_not_passed kw est _ Hi Hin). vm_compute. reflexivity.
Qed.





Lemma predict_fields_ok metadata ls os ps fs :
  predict_fields metadata ls os ps = Ok fs ->
  length fs = min (length ls) (min (length os) (length ps)) /\
  forall i o f, fs !! i = Some (o, f) ->
    exists l p meta, ls !! i = Some l /\ os !! i = Some o /\ ps !! i = Some p /\
      metadata !! l = Some meta /\ decode_prediction meta p = Ok f.
Proof.
  revert os ps fs. induction ls as [|l ls IH]; intros os ps fs H.
  - simpl in H. injection H as <-. split; [done|]. intros i o f Hi. by rewrite lookup_nil in Hi.
  - destruct os as [|o os]; [simpl in H; injection H as <-; split; [simpl; lia|];
      intros i o f Hi; by rewrite lookup_nil in Hi|].
    destruct ps as [|p ps]; [simpl in H; injection H as <-; split; [simpl; lia|];
      intros i o' f Hi; by rewrite lookup_nil in Hi|].
    simpl in H. destruct (metadata !! l) as [meta|] eqn:Em; [|discriminate].
    destruct (decode_prediction meta p) as [f|e] eqn:Ed; [|discriminate]. simpl in H.
    destruct (predict_fields metadata ls os ps) as [rest|e] eqn:Er; [|discriminate].
    injection H as <-. destruct (IH os ps rest Er) as [Hlen Hall]. split.
    + simpl. lia.
    + intros [|i] o' f' Hi; simpl in Hi.
      * injection Hi as <- <-. exists l, p, meta. done.
      * apply Hall in Hi as (l' & p' & meta' & H). exists l', p', meta'. done.
Qed.

Lemma predict_fields_missing metadata ls os ps i l :
  i < length os -> i < length ps -> ls !! i = Some l -> metadata !! l = None ->
  exists e, predict_fields metadata ls os ps = Err e.
Proof.
  revert os ps i. induction ls as [|l0 ls IH]; intros os ps i Ho Hp Hl Hm; [done|].
  destruct os as [|o os]; [simpl in Ho; lia|]. destruct ps as [|p ps]; [simpl in Hp; lia|].
  simpl. destruct i as [|i]; simpl in Hl.
  - injection Hl as ->. rewrite Hm. eauto.
  - destruct (metadata !! l0) as [meta|]; [|eauto].
    destruct (decode_prediction meta p); simpl; [|eauto].
    destruct (IH os ps i) as [e He]; [simpl in *; lia|simpl in *; lia|done|done|].
    rewrite He. eauto.
Qed.

(** Extra: the output fields of a row zip label columns, output columns and predictions, stopping at the shortest, each field decoded with its label column's metadata; a label column in that range without metadata fails. *)
Theorem predict_fields_zip metadata ls os ps :
  (forall fs, predict_fields metadata ls os ps = Ok fs ->
     length fs = min (length ls) (min (length os) (length ps)) /\
     forall i o f, fs !! i = Some (o, f) ->
       exists l p meta, ls !! i = Some l /\ os !! i = Some o /\ ps !! i = Some p /\
         metadata !! l = Some meta /\ decode_prediction meta p = Ok f) /\
  (forall i l, i < length os -> i < length ps -> ls !! i = Some l -> metadata !! l = None ->
     exists e, predict_fields metadata ls os ps = Err e).
Proof.
  split; [apply predict_fields_ok|]. intros i l. apply predict_fields_missing.
Qed.

Lemma foldl_insert_other (base : gmap string cell) (fs : list (string * field)) k :
  k ∉ fs.*1 ->
  foldl (fun fields of => <[of.1 := CField of.2]> fields) base fs !! k = base !! k.
Proof.
  revert base. induction fs as [|[o f] fs IH]; intros base Hk; [done|].
  simpl in *. apply not_elem_of_cons in Hk as [Hk1 Hk2].
  rewrite IH by done. by rewrite lookup_insert_ne.
Qed.

Lemma predict_fields_fst metadata ls os ps fs :
  predict_fields metadata ls os ps = Ok fs -> fs.*1 = take (min (length ls) (length ps)) os.
Proof.
  revert os ps fs. induction ls as [|l ls IH]; intros os ps fs H.
  - simpl in H. by injection H as <-.
  - destruct os as [|o os]; [simpl in H; injection H as <-; by rewrite take_nil|].
    destruct ps as [|p ps]; [simpl in H; injection H as <-; by rewrite Nat.min_0_r|].
    simpl in H. destruct (metadata !! l) as [meta|]; [|discriminate].
    destruct (decode_prediction meta p) as [f|e]; [|discriminate]. simpl in H.
    destruct (predict_fields metadata ls os ps) as [rest|e] eqn:Er; [|discriminate].
    injection H as <-. rewrite fmap_cons, (IH os ps rest Er). reflexivity.
Qed.

Lemma foldl_insert_in (base : gmap string cell) (fs : list (string * field)) k :
  k ∈ fs.*1 ->
  exists f, foldl (fun fields of => <[of.1 := CField of.2]> fields) base fs !! k = Some (CField f).
Proof.
  revert base. induction fs as [|[o f] fs IH]; intros base Hk; [by apply not_elem_of_nil in Hk|].
  simpl. destruct (decide (k ∈ fs.*1)) as [Hin|Hnin]; [by apply IH|].
  simpl in Hk. apply elem_of_cons in Hk as [->|]; [|done].
  exists f. rewrite foldl_insert_other by done. by rewrite lookup_insert_eq.
Qed.

(** Extra: the row [predict] returns holds a decoded prediction in each
    of the first min(label columns, output columns, predictions) output
    columns, keeps every other input column as it was, and for a model
    returning a single tensor writes its decoded value to the first output
    column. *)
Theorem predict_row_fields metadata ls os (row : gmap string pyval) preds out :
  predict_row metadata ls os row preds = Ok out ->
  (forall k, k ∉ take (min (length ls) (length (as_preds preds))) os ->
     out !! k = CVal <$> row !! k) /\
  (forall k, k ∈ take (min (length ls) (length (as_preds preds))) os ->
     exists f, out !! k = Some (CField f)) /\
  (forall t l o ls' os', preds = OutTensor t -> ls = l :: ls' -> os = o :: os' ->
     exists meta f, metadata !! l = Some meta /\ decode_prediction meta t = Ok f /\
       out !! o = Some (CField f)).
Proof.
  unfold predict_row. intros H.
  destruct (predict_fields metadata ls os (as_preds preds)) as [fs|e] eqn:Hf; [|discriminate].
  simpl in H. injection H as <-. pose proof (predict_fields_fst _ _ _ _ _ Hf) as Hfst.
  split; [|split].
  - intros k Hk. rewrite foldl_insert_other; [by rewrite lookup_fmap|]. by rewrite Hfst.
  - intros k Hk. apply foldl_insert_in. by rewrite Hfst.
  - intros t l o ls' os' -> -> ->. simpl in Hf.
    destruct (metadata !! l) as [meta|] eqn:Em; [|discriminate].
    destruct (decode_prediction meta t) as [f|e] eqn:Ed; [|discriminate].
    destruct ls' as [|l' ls'], os' as [|o' os']; simpl in Hf; injection Hf as <-;
      exists meta, f; simpl; by rewrite lookup_insert_eq.
Qed.

(** Extra: with a codec whose [loads_base64] inverts [dumps_base64], deserializing the serialized params gives back every value except [backend] and [store], which come back as [None]. *)
Theorem param_serialization_round_trip (C : Collab) (d : list (string * pyval)) :
  (forall v, codec_loads_base64 C (codec_dumps_base64 C v) = Ok v) ->
  (forall v, codec_dumps_base64 C v <> PNone) ->
  _deserialize_dict C (map (fun kv => (kv.1, _torch_param_serialize C kv.1 kv.2)) d) =
    Ok (map (fun kv => (kv.1, if bool_decide (kv.1 = "backend" \/ kv.1 = "store")
                              then PNone else kv.2)) d).
Proof.
  intros Hinv Hnn. unfold _deserialize_dict.
  induction d as [|[k v] d IH]; [done|]. simpl.
  assert (E : (if is_none (_torch_param_serialize C k v) then Ok (k, PNone)
               else match codec_loads_base64 C (_torch_param_serialize C k v) with
                    | Ok w => Ok (k, w) | Err e => Err e end) =
              Ok (k, if bool_decide (k = "backend" \/ k = "store") then PNone else v)).
  { unfold _torch_param_serialize. simpl.
    destruct (String.eqb k "backend") eqn:E1; [apply String.eqb_eq in E1; subst;
      rewrite bool_decide_eq_true_2 by tauto; done|].
    destruct (String.eqb k "store") eqn:E2; [apply String.eqb_eq in E2; subst;
      rewrite bool_decide_eq_true_2 by tauto; done|].
    apply String.eqb_neq in E1, E2. rewrite bool_decide_eq_false_2 by tauto. simpl.
    destruct (is_none v) eqn:En; [by destruct v|].
    destruct (codec_dumps_base64 C v) eqn:Ed; [by apply Hnn in Ed|..];
      simpl; rewrite <- Ed, Hinv; done. }
  rewrite E, IH. done.
Qed.

(** Extra: [TorchModel.__init__] (with declared keywords) sets [outputCols] only for truthy [label_columns]: with a [run_id] that is [None] or a string, falsy [label_columns] leave [outputCols] unset and a string is iterated per character, giving one output column per character; a list with a non-string element raises [TypeError] on the suffix concatenation. *)
Theorem TorchModel_init_label_columns (kw : list (string * pyval)) :
  (forall kv, In kv kw -> kv.1 ∈ TorchModel_arg_names) ->
  ((forall v, In ("run_id", v) kw -> v = PNone \/ exists s, v = PStr s) ->
   truthy (kw_get "label_columns" PNone kw) = false ->
     exists p, TorchModel_init kw = Ok p /\ getOutputCols p = Err (KeyError "outputCols")) /\
  ((forall v, In ("run_id", v) kw -> v = PNone \/ exists s, v = PStr s) ->
   forall s, kw_get "label_columns" PNone kw = PStr s -> s <> "" ->
     exists p, TorchModel_init kw = Ok p /\
       getOutputCols p = Ok (PList (map (fun c => PStr (String c EmptyString +:+ "__output"))
                                        (String.list_ascii_of_string s)))) /\
  (forall l1 v l2, kw_get "label_columns" PNone kw = PList (map PStr l1 ++ v :: l2) ->
     (forall s, v <> PStr s) ->
     TorchModel_init kw = Err (TypeError "unsupported operand type(s) for +")).
Proof.
  intros Hnames. split; [|split].
  - intros Hrun Hf. unfold TorchModel_init. rewrite (unexpected_keyword_none _ _ Hnames), Hf.
    edestruct (TorchModel_setParams kw) as (m & Hm & Ho); [exact Hnames|exact Hrun|].
    rewrite Hm. exists m. split; [done|]. unfold getOutputCols. rewrite Ho. reflexivity.
  - intros Hrun s Hs Hne. unfold TorchModel_init. rewrite (unexpected_keyword_none _ _ Hnames), Hs.
    assert (Ht : truthy (PStr s) = true).
    { simpl. destruct (String.eqb s "") eqn:E; [apply String.eqb_eq in E; congruence|reflexivity]. }
    rewrite Ht. cbn [py_iter].
    assert (Hm : forall l, map_result add_output_suffix
                   (map (fun c => PStr (String c EmptyString)) l) =
                 Ok (map (fun c => PStr (String c EmptyString +:+ "__output")) l)).
    { induction l as [|c l IH]; [done|]. simpl. by rewrite IH. }
    rewrite Hm, _set_outputCols by apply forallb_can_convert_map.
    edestruct (TorchModel_setParams kw) as (m & Hm' & Ho); [exact Hnames|exact Hrun|].
    rewrite Hm'. exists m. split; [done|].
    unfold getOutputCols. rewrite Ho. unfold getOrDefault. simpl. by rewrite lookup_insert_eq.
  - intros l1 v l2 Hl Hv. unfold TorchModel_init. rewrite (unexpected_keyword_none _ _ Hnames), Hl.
    assert (Ht : truthy (PList (map PStr l1 ++ v :: l2)) = true).
    { simpl. rewrite length_app. simpl. destruct (Nat.eqb _ 0) eqn:E; [|done].
      apply Nat.eqb_eq in E. lia. }
    rewrite Ht. cbn [py_iter].
    assert (Hm : map_result add_output_suffix (map PStr l1 ++ v :: l2) =
                 Err (TypeError "unsupported operand type(s) for +")).
    { clear -Hv. induction l1 as [|c l1 IH]; simpl.
      - destruct v; try reflexivity. exfalso. by apply (Hv s).
      - by rewrite IH. }
    by rewrite Hm.
Qed.

Lemma unexpected_keyword_none_inv names kw :
  unexpected_keyword names kw = None -> forall kv, In kv kw -> kv.1 ∈ names.
Proof.
  unfold unexpected_keyword. destruct (List.find _ kw) eqn:Hf; [done|].
  intros _ kv Hin. pose proof (find_none _ _ Hf kv Hin) as H. simpl in H.
  apply negb_false_iff in H. by apply existsb_elem_of.
Qed.

Lemma TorchEstimator_arg_names_params :
  Forall (fun k => k ∈ TorchEstimator_params.*1) TorchEstimator_arg_names.
Proof. apply (bool_decide_unpack _). vm_compute. reflexivity. Qed.

Lemma TorchModel_arg_names_params :
  Forall (fun k => k ∈ TorchModel_params.*1) TorchModel_arg_names.
Proof. apply (bool_decide_unpack _). vm_compute. reflexivity. Qed.

Lemma param_value_run_id v :
  is_none v = false -> (forall s, v <> PStr s) ->
  is_ok (param_value TorchModel_params "run_id" v) = false.
Proof.
  intros Hn Hs. unfold param_value. simpl. rewrite Hn.
  destruct v; try reflexivity. exfalso. by apply (Hs s).
Qed.

(** Extra: both constructors are [@keyword_only]: a keyword argument they
    do not declare raises [TypeError] before the body runs.
    [TorchEstimator.__init__] with declared keywords and not both losses
    raises [TypeError] (from [_set]) when a value is rejected by its
    param's type converter, and returns an estimator when every value is
    accepted.  [TorchModel.__init__] with declared keywords and a falsy
    [label_columns] raises [TypeError] for a [run_id] that is neither
    [None] nor a string. *)
Theorem init_argument_errors (kw : list (string * pyval)) :
  ((exists kv, In kv kw /\ (kv.1 ∉ TorchEstimator_arg_names)) ->
   exists k, (k ∉ TorchEstimator_arg_names) /\
     TorchEstimator_init kw = Err (unexpected_keyword_error k)) /\
  ((exists kv, In kv kw /\ (kv.1 ∉ TorchModel_arg_names)) ->
   exists k, (k ∉ TorchModel_arg_names) /\
     TorchModel_init kw = Err (unexpected_keyword_error k)) /\
  ((forall kv, In kv kw -> kv.1 ∈ TorchEstimator_arg_names) ->
   kw_in "loss" kw && kw_in "loss_constructor" kw = false ->
   ((exists kv, In kv kw /\ is_ok (param_value TorchEstimator_params kv.1 kv.2) = false) ->
      exists msg, TorchEstimator_init kw = Err (TypeError msg)) /\
   ((forall kv, In kv kw -> is_ok (param_value TorchEstimator_params kv.1 kv.2) = true) ->
      exists est, TorchEstimator_init kw = Ok est)) /\
  ((forall kv, In kv kw -> kv.1 ∈ TorchModel_arg_names) ->
   truthy (kw_get "label_columns" PNone kw) = false ->
   forall v, In ("run_id", v) kw -> is_none v = false -> (forall s, v <> PStr s) ->
   exists msg, TorchModel_init kw = Err (TypeError msg)).
Proof.
  split; [|split; [|split]].
  - intros (kv & Hin & Hk). unfold TorchEstimator_init.
    destruct (unexpected_keyword TorchEstimator_arg_names kw) as [k|] eqn:E.
    + exists k. split; [by eapply unexpected_keyword_some|done].
    + exfalso. exact (Hk (unexpected_keyword_none_inv _ _ E kv Hin)).
  - intros (kv & Hin & Hk). unfold TorchModel_init.
    destruct (unexpected_keyword TorchModel_arg_names kw) as [k|] eqn:E.
    + exists k. split; [by eapply unexpected_keyword_some|done].
    + exfalso. exact (Hk (unexpected_keyword_none_inv _ _ E kv Hin)).
  - intros Hn Hb. split; [|by apply TorchEstimator_init_total].
    intros (kv & Hin & Hrej). unfold TorchEstimator_init.
    rewrite (unexpected_keyword_none _ _ Hn), Hb.
    assert (Hl : kv.1 <> "loss" /\ kv.1 <> "loss_constructor").
    { split; intros E; rewrite E in Hrej;
        [rewrite (proj1 (param_value_loss kv.2)) in Hrej|
         rewrite (proj2 (param_value_loss kv.2)) in Hrej]; discriminate. }
    assert (Hnames : forall k v kw0, (k = "loss" \/ k = "loss_constructor") ->
              (forall kv, In kv kw0 -> kv.1 ∈ TorchEstimator_params.*1) ->
              forall kv, In kv (kw_update k v kw0) -> kv.1 ∈ TorchEstimator_params.*1).
    { intros k v kw0 Hk Ha kv' Hin'. destruct (kw_update_cases _ _ _ _ Hin') as [H| ->]; [auto|].
      simpl. destruct Hk as [->| ->]; vm_compute; set_solver. }
    assert (Hn' : forall kv, In kv kw -> kv.1 ∈ TorchEstimator_params.*1).
    { intros kv' Hin'. apply (proj1 (Forall_forall _ _) TorchEstimator_arg_names_params).
      by apply Hn. }
    clear Hb. apply _set_type_error;
      destruct (kw_in "loss" kw && negb _); destruct (kw_in "loss_constructor" _ && negb _).
    all: try (repeat (apply Hnames; [tauto|]); exact Hn').
    all: exists kv; split; [|exact Hrej];
         repeat (apply kw_update_keep; [|tauto]); exact Hin.
  - intros Hn Hf v Hin Hnone Hs. unfold TorchModel_init.
    rewrite (unexpected_keyword_none _ _ Hn). cbv zeta. rewrite Hf.
    apply _set_type_error.
    + intros kv Hkv. apply (proj1 (Forall_forall _ _) TorchModel_arg_names_params). by apply Hn.
    + exists ("run_id", v). split; [exact Hin|]. by apply param_value_run_id.
Qed.

(** Extra: in [_fit_on_prepared_data] with a truthy model (neither [None] nor an empty container module), a missing [input_shapes] fails before anything is recorded, and a rejected [check_shape_compatibility] fails right after the check, with its error. *)
Theorem fit_on_prepared_data_shape_check C self b trr vr md ars m fc lc tr :
  getOrDefault self "model" = Ok m -> truthy m = true ->
  getOrDefault self "feature_cols" = Ok fc -> getOrDefault self "label_cols" = Ok lc ->
  (forall e, getOrDefault self "input_shapes" = Err e ->
     _fit_on_prepared_data C self b trr vr md ars tr = (tr, Err e)) /\
  (forall is e, getOrDefault self "input_shapes" = Ok is ->
     check_shape_compatibility C md fc lc is = Err e ->
     _fit_on_prepared_data C self b trr vr md ars tr = (tr ++ [EvCheckShape md], Err e)).
Proof. apply _fit_on_prepared_data_check. Qed.

(** Extra: the [TorchModel] that [_create_model] returns has the estimator's [feature_cols], [input_shapes] and [label_cols] as its [feature_columns], [input_shapes] and [label_columns], and the given [run_id] and metadata. *)
Theorem create_model_copies_params C est rrs run_id md tr m :
  snd (_create_model C est rrs run_id md tr) = Ok m ->
  exists fc is lc,
    getOrDefault est "feature_cols" = Ok fc /\ getOrDefault est "input_shapes" = Ok is /\
    getOrDefault est "label_cols" = Ok lc /\
    getOrDefault m "feature_columns" = Ok fc /\ getOrDefault m "input_shapes" = Ok is /\
    getOrDefault m "label_columns" = Ok lc /\ getOrDefault m "run_id" = Ok run_id /\
    getOrDefault m "_metadata" = Ok md.
Proof. apply _create_model_params. Qed.

(** Witness: [TorchEstimator(validation_split=0.1)] validates. *)
Lemma should_validate_init_witness :
  exists est, TorchEstimator_init [("validation_split", PFloat (1#10))] = Ok est /\
    _should_validate est = Ok true.
Proof.
  set (est := py_set TorchEstimator_defaults [("validation_split", PFloat (1#10))]).
  assert (Hi : TorchEstimator_init [("validation_split", PFloat (1#10))] = Ok est)
    by (vm_compute; reflexivity).
  exists est. split; [exact Hi|].
  destruct (should_validate_init _ _ Hi) as (_ & _ & H3 & _).
  apply (H3 (1#10)); [reflexivity|reflexivity| |].
  - intros kv [<-|[]]; reflexivity.
  - reflexivity.
Defined.

(** Witness: [setEpochs(3)] on a fresh estimator. *)
Lemma set_param_get_witness :
  (exists self', set_param TorchEstimator_defaults "validation_split" (PInt 1) = Ok self' /\
     getOrDefault self' "validation_split" = Ok (PFloat 1) /\
     getOrDefault self' "batch_size" = Ok (PInt 32)) /\
  (exists msg, set_param TorchEstimator_defaults "batch_size" (PStr "x") = Err (TypeError msg)).
Proof.
  split.
  - destruct (set_param_get TorchEstimator_defaults "validation_split" (PInt 1))
      as (H1 & _ & _); [apply existsb_elem_of; reflexivity|].
    destruct (H1 (PFloat 1)) as (self' & Hs & Hg & Ho & _); [reflexivity|].
    exists self'. split; [exact Hs|]. split; [exact Hg|].
    rewrite Ho by discriminate. vm_compute. reflexivity.
  - destruct (set_param_get TorchEstimator_defaults "batch_size" (PStr "x"))
      as (_ & _ & H3); [apply existsb_elem_of; reflexivity|].
    apply H3. reflexivity.
Defined.

(** Witness: a fixed metadata reader and [TorchEstimator(backend=...)]. *)
Lemma fit_on_parquet_skips_preparation_witness :
  exists est, TorchEstimator_init [("backend", PObj 100)] = Ok est /\
    _fit_on_parquet demo_collab (fun _ _ _ _ => Ok (PObj 201, PObj 202, PObj 203, PInt 1000)) est [] =
      _fit_on_prepared_data demo_collab est (PObj 100) (PObj 201) (PObj 202) (PObj 203) (PInt 1000) [].
Proof.
  set (est := py_set TorchEstimator_defaults [("backend", PObj 100)]).
  assert (Hi : TorchEstimator_init [("backend", PObj 100)] = Ok est) by (vm_compute; reflexivity).
  assert (Hb : getOrDefault est "backend" = Ok (PObj 100)) by (vm_compute; reflexivity).
  exists est. split; [exact Hi|].
  destruct (proj2 (fit_on_parquet_skips_preparation demo_collab
                     (fun _ _ _ _ => Ok (PObj 201, PObj 202, PObj 203, PInt 1000)) _ est _ []) Hi Hb)
    as (st & lc & fc & sw & ->).
  reflexivity.
Defined.

(** Witness: [TorchEstimator(num_proc=2, model=m)]. *)
Lemma fit_without_input_shapes_witness :
  exists est, TorchEstimator_init [("num_proc", PInt 2); ("model", PObj 5)] = Ok est /\
    _fit demo_collab est PNone [] =
      ([] ++ [EvSparkBackend (PInt 2); EvPrepareData (PInt 2)], Err (KeyError "input_shapes")).
Proof.
  set (est := py_set TorchEstimator_defaults [("num_proc", PInt 2); ("model", PObj 5)]).
  assert (Hi : TorchEstimator_init [("num_proc", PInt 2); ("model", PObj 5)] = Ok est)
    by (vm_compute; reflexivity).
  assert (Hn : getOrDefault est "num_proc" = Ok (PInt 2)) by (vm_compute; reflexivity).
  assert (Hb : getOrDefault est "backend" = Ok PNone) by (vm_compute; reflexivity).
  assert (Hm : getOrDefault est "model" = Ok (PObj 5)) by (vm_compute; reflexivity).
  exists est. split; [exact Hi|].
  apply (fit_without_input_shapes demo_collab _ est PNone (PInt 2) PNone (PObj 5)
           (EvSparkBackend (PInt 2)) (PObj 100) (PInt 2) [] Hi); try reflexivity; try assumption.
  intros. eexists. reflexivity.
Defined.

(** Witness: a shape check that rejects the metadata. *)
Lemma fit_on_prepared_data_shape_check_witness :
  exists est,
    TorchEstimator_init [("model", PObj 5); ("input_shapes", PList [PList [PInt 3]])] = Ok est /\
    _fit_on_prepared_data shape_error_collab est (PObj 100) (PObj 201) (PObj 202) (PObj 203)
      (PInt 1000) [] = ([] ++ [EvCheckShape (PObj 203)], Err (ValueError "shape mismatch")).
Proof.
  set (est := py_set TorchEstimator_defaults
                [("model", PObj 5); ("input_shapes", PList [PList [PInt 3]])]).
  assert (Hi : TorchEstimator_init [("model", PObj 5); ("input_shapes", PList [PList [PInt 3]])]
               = Ok est) by (vm_compute; reflexivity).
  assert (Hm : getOrDefault est "model" = Ok (PObj 5)) by (vm_compute; reflexivity).
  assert (Hf : getOrDefault est "feature_cols" = Ok PNone) by (vm_compute; reflexivity).
  assert (Hl : getOrDefault est "label_cols" = Ok PNone) by (vm_compute; reflexivity).
  assert (Hs : getOrDefault est "input_shapes" = Ok (PList [PList [PInt 3]]))
    by (vm_compute; reflexivity).
  exists est. split; [exact Hi|].
  apply (proj2 (fit_on_prepared_data_shape_check shape_error_collab est (PObj 100) (PObj 201)
                  (PObj 202) (PObj 203) (PInt 1000) (PObj 5) PNone PNone [] Hm eq_refl Hf Hl)
                (PList [PList [PInt 3]])); [exact Hs|reflexivity].
Defined.

(** Witness: the demo run results with [run_id='R1']. *)
Lemma create_model_copies_params_witness :
  exists est m,
    TorchEstimator_init [("model", PObj 5); ("input_shapes", PList [PList [PInt 3]])] = Ok est /\
    snd (_create_model demo_collab est demo_run_results (PStr "R1") (PObj 203) []) = Ok m /\
    getOrDefault m "input_shapes" = Ok (PList [PList [PInt 3]]) /\
    getOrDefault m "run_id" = Ok (PStr "R1").
Proof.
  set (est := py_set TorchEstimator_defaults
                [("model", PObj 5); ("input_shapes", PList [PList [PInt 3]])]).
  assert (Hi : TorchEstimator_init [("model", PObj 5); ("input_shapes", PList [PList [PInt 3]])]
               = Ok est) by (vm_compute; reflexivity).
  assert (Hs : getOrDefault est "input_shapes" = Ok (PList [PList [PInt 3]]))
    by (vm_compute; reflexivity).
  destruct (snd (_create_model demo_collab est demo_run_results (PStr "R1") (PObj 203) []))
    as [m|e] eqn:E; [|vm_compute in E; discriminate].
  exists est, m. split; [exact Hi|]. split; [exact E|].
  destruct (create_model_copies_params demo_collab est demo_run_results (PStr "R1") (PObj 203) [] m E)
    as (fc & is & lc & _ & H2 & _ & _ & H5 & _ & H7 & _).
  rewrite Hs in H2. injection H2 as <-. split; assumption.
Defined.

(** Witness: an estimator with no [run_id] gets ['pytorch_1570000000']. *)
Lemma fit_on_prepared_data_run_id_witness :
  exists est m,
    TorchEstimator_init [("model", PObj 5); ("input_shapes", PList [PList [PInt 3]])] = Ok est /\
    snd (_fit_on_prepared_data demo_collab est (PObj 100) (PObj 201) (PObj 202) (PObj 203)
           (PInt 1000) []) = Ok m /\
    getOrDefault m "run_id" = Ok (PStr ("pytorch_" +:+ pretty 1570000000%Z)).
Proof.
  set (est := py_set TorchEstimator_defaults
                [("model", PObj 5); ("input_shapes", PList [PList [PInt 3]])]).
  assert (Hi : TorchEstimator_init [("model", PObj 5); ("input_shapes", PList [PList [PInt 3]])]
               = Ok est) by (vm_compute; reflexivity).
  assert (Hr : getOrDefault est "run_id" = Ok PNone) by (vm_compute; reflexivity).
  destruct (snd (_fit_on_prepared_data demo_collab est (PObj 100) (PObj 201) (PObj 202) (PObj 203)
           (PInt 1000) [])) as [m|e] eqn:E; [|vm_compute in E; discriminate].
  exists est, m. split; [exact Hi|]. split; [exact E|].
  destruct (_fit_on_prepared_data_run_id demo_collab est (PObj 100) (PObj 201) (PObj 202)
              (PObj 203) (PInt 1000) [] PNone m Hr E) as [H _].
  exact H.
Defined.



(** Witness: a second label column without metadata. *)
Lemma predict_fields_zip_witness :
  exists e, predict_fields {[ "a" := {| spark_data_type := DenseVector; shape := 1 |} ]}
              ["a"; "b"] ["a__output"; "b__output"] [[1%Q]; [2%Q]] = Err e.
Proof.
  apply (proj2 (predict_fields_zip {[ "a" := {| spark_data_type := DenseVector; shape := 1 |} ]}
                  ["a"; "b"] ["a__output"; "b__output"] [[1%Q]; [2%Q]]) 1 "b");
    [simpl; lia|simpl; lia|reflexivity|vm_compute; reflexivity].
Defined.

(** Witness: a dense label column of shape 1. *)
Lemma predict_row_fields_witness :
  exists out,
    predict_row {[ "y" := {| spark_data_type := DenseVector; shape := 1 |} ]} ["y"] ["y__output"]
      {[ "x" := PInt 1 ]} (OutTensor [7%Q]) = Ok out /\
    out !! "x" = Some (CVal (PInt 1)) /\
    out !! "y__output" = Some (CField (FDenseVector [7%Q])).
Proof.
  destruct (predict_row {[ "y" := {| spark_data_type := DenseVector; shape := 1 |} ]} ["y"]
              ["y__output"] {[ "x" := PInt 1 ]} (OutTensor [7%Q])) as [out|e] eqn:E;
    [|vm_compute in E; discriminate].
  exists out. split; [reflexivity|].
  destruct (predict_row_fields _ _ _ _ _ _ E) as [H1 [_ H2]]. split.
  - rewrite H1; [vm_compute; reflexivity|]. vm_compute. set_solver.
  - destruct (H2 [7%Q] "y" "y__output" [] [] eq_refl eq_refl eq_refl)
      as (meta & f & Hm & Hd & Ho).
    vm_compute in Hm. injection Hm as <-. vm_compute in Hd. injection Hd as <-. exact Ho.
Defined.

(** Witness: the tagged codec on [epochs], [store] and [run_id]. *)
Lemma param_serialization_round_trip_witness :
  _deserialize_dict b64_collab
    (map (fun kv => (kv.1, _torch_param_serialize b64_collab kv.1 kv.2))
       [("epochs", PInt 3); ("store", PObj 7); ("run_id", PNone)]) =
    Ok [("epochs", PInt 3); ("store", PNone); ("run_id", PNone)].
Proof.
  rewrite (param_serialization_round_trip b64_collab); [| intros v; reflexivity | discriminate].
  vm_compute. reflexivity.
Defined.

(** Witness: [label_columns=['y', 1]] and [label_columns='ab']. *)
Lemma TorchModel_init_label_columns_witness :
  TorchModel_init [("label_columns", PList [PStr "y"; PInt 1])] =
    Err (TypeError "unsupported operand type(s) for +") /\
  exists p, TorchModel_init [("label_columns", PStr "ab")] = Ok p /\
    getOutputCols p = Ok (PList [PStr "a__output"; PStr "b__output"]).
Proof.
  split.
  - apply (proj2 (proj2 (TorchModel_init_label_columns [("label_columns", PList [PStr "y"; PInt 1])]
             ltac:(intros kv [<-|[]]; unfold TorchModel_arg_names; simpl; set_solver)))
             ["y"] (PInt 1) []); [reflexivity|discriminate].
  - destruct (proj1 (proj2 (TorchModel_init_label_columns [("label_columns", PStr "ab")]
             ltac:(intros kv [<-|[]]; unfold TorchModel_arg_names; simpl; set_solver)))
             ltac:(intros v [H|[]]; discriminate)
             "ab" eq_refl ltac:(discriminate)) as (p & Hp & Ho).
    exists p. split; [exact Hp|]. rewrite Ho. reflexivity.
Defined.

(** Witness: [TorchEstimator(foo=1)], [TorchEstimator(batch_size='x')]
    and [TorchModel(run_id=5)]. *)
Lemma init_argument_errors_witness :
  (exists k, (k ∉ TorchEstimator_arg_names) /\
     TorchEstimator_init [("foo", PInt 1)] = Err (unexpected_keyword_error k)) /\
  TorchEstimator_init [("foo", PInt 1)] = Err (unexpected_keyword_error "foo") /\
  (exists msg, TorchEstimator_init [("batch_size", PStr "x")] = Err (TypeError msg)) /\
  (exists msg, TorchModel_init [("run_id", PInt 5)] = Err (TypeError msg)).
Proof.
  split; [|split; [|split]].
  - apply (proj1 (init_argument_errors [("foo", PInt 1)])).
    exists ("foo", PInt 1). split; [by left|vm_compute; set_solver].
  - vm_compute. reflexivity.
  - apply (proj1 (proj1 (proj2 (proj2 (init_argument_errors [("batch_size", PStr "x")])))
             ltac:(apply names_ok; reflexivity) eq_refl)).
    exists ("batch_size", PStr "x"). split; [by left|reflexivity].
  - apply (proj2 (proj2 (proj2 (init_argument_errors [("run_id", PInt 5)])))
             ltac:(apply names_ok; reflexivity) eq_refl (PInt 5) (or_introl eq_refl)
             eq_refl ltac:(discriminate)).
Defined.

